(** * kubectl resource printers: a shallow embedding of
      [pkg/kubectl/resource_printer.go] and its properties.

    The file follows the Go source top to bottom:
    - byte strings, [fmt] verbs and [strings.Join] as the source uses them;
    - [reflect.Type] identities and [reflect.Value]s of handler functions;
    - programs over an [io.Writer] ([prog]): every Go function of the file
      that receives a writer is a [prog], run against any writer;
    - the column writer of [text/tabwriter] in the one configuration that
      [PrintObj] constructs;
    - [GetPrinter], [JSONPrinter], [HumanReadablePrinter] and the default
      render functions;
    - the theorems. *)

From Stdlib Require Import ZArith Ascii String List DecimalString Lia.
From stdpp Require Import base option list countable gmap strings.
Import ListNotations.
Local Open Scope string_scope.
Local Open Scope list_scope.
Local Open Scope Z_scope.

(** ** Byte strings

    A Go [string] and a [[]byte] are both sequences of bytes; both are
    [string] here (a list of 8-bit characters). *)

Definition TAB : ascii := ascii_of_nat 9.
Definition NL : ascii := ascii_of_nat 10.
Definition VT : ascii := ascii_of_nat 11.
Definition FF : ascii := ascii_of_nat 12.
Definition BACKSLASH : ascii := ascii_of_nat 92.

(** [lit] reads a Go interpreted string literal: the source's literals are
    kept verbatim, and the escapes [\t], [\n] and [\\] they contain are
    decoded here. *)
Fixpoint lit (s : string) : string :=
  match s with
  | EmptyString => EmptyString
  | String c rest =>
      if Ascii.eqb c BACKSLASH then
        match rest with
        | String d rest' =>
            if Ascii.eqb d "t"%char then String TAB (lit rest')
            else if Ascii.eqb d "n"%char then String NL (lit rest')
            else if Ascii.eqb d BACKSLASH then String BACKSLASH (lit rest')
            else String c (lit rest)
        | EmptyString => String c EmptyString
        end
      else String c (lit rest)
  end.

(** [len(s)] *)
Definition len (s : string) : Z := Z.of_nat (String.length s).

(** [strings.Join(a, sep)] *)
Fixpoint strings_Join (a : list string) (sep : string) : string :=
  match a with
  | [] => ""
  | [x] => x
  | x :: rest => x +:+ sep +:+ strings_Join rest sep
  end.

(** ** Runtime type identities ([reflect.Type])

    Two [reflect.Type] values are equal exactly when they denote identical
    types.  A named type is identified by its qualified name, a pointer type
    by its element type and a function type by its parameter and result
    types. *)

Inductive reflect_Kind := Invalid | Interface | Struct | Basic | Ptr | Func.

#[global] Instance reflect_Kind_eq_dec : EqDecision reflect_Kind.
Proof. solve_decision. Defined.

Unset Elimination Schemes.
Inductive rtype :=
| TStruct (name : string)          (* a named struct type: [api.Pod] *)
| TInterface (name : string)       (* a named interface type: [io.Writer] *)
| TBasic (name : string)           (* any other named type: [string], [int] *)
| TPtr (elem : rtype)              (* [*T] *)
| TFunc (ins outs : list rtype).   (* [func(ins...) (outs...)] *)
Set Elimination Schemes.

(** A [reflect.Type] is an interface value and may be nil: [reflect.TypeOf]
    of a nil interface, and the zero value of [lastType]. *)
Definition reflect_Type := option rtype.

Section rtype_induction.
Variable P : rtype -> Prop.
Hypothesis HStruct : forall n, P (TStruct n).
Hypothesis HInterface : forall n, P (TInterface n).
Hypothesis HBasic : forall n, P (TBasic n).
Hypothesis HPtr : forall e, P e -> P (TPtr e).
Hypothesis HFunc : forall ins outs, Forall P ins -> Forall P outs -> P (TFunc ins outs).

Fixpoint rtype_ind (t : rtype) : P t :=
    match t with
    | TStruct n => HStruct n
    | TInterface n => HInterface n
    | TBasic n => HBasic n
    | TPtr e => HPtr e (rtype_ind e)
    | TFunc ins outs =>
        HFunc ins outs
          ((fix go (l : list rtype) : Forall P l :=
              match l with
              | [] => List.Forall_nil P
              | x :: l' => @List.Forall_cons _ P x l' (rtype_ind x) (go l')
              end) ins)
          ((fix go (l : list rtype) : Forall P l :=
              match l with
              | [] => List.Forall_nil P
              | x :: l' => @List.Forall_cons _ P x l' (rtype_ind x) (go l')
              end) outs)
    end.
End rtype_induction.

Fixpoint rtype_encode (t : rtype) : gen_tree string :=
  match t with
  | TStruct n => GenNode 0 [GenLeaf n]
  | TInterface n => GenNode 1 [GenLeaf n]
  | TBasic n => GenNode 2 [GenLeaf n]
  | TPtr e => GenNode 3 [rtype_encode e]
  | TFunc ins outs =>
      GenNode 4 [GenNode 0 (map rtype_encode ins); GenNode 0 (map rtype_encode outs)]
  end.

Fixpoint sequence_opt {A} (l : list (option A)) : option (list A) :=
  match l with
  | [] => Some []
  | Some x :: l' => match sequence_opt l' with Some r => Some (x :: r) | None => None end
  | None :: _ => None
  end.

Fixpoint rtype_decode (g : gen_tree string) : option rtype :=
  match g with
  | GenNode 0 [GenLeaf n] => Some (TStruct n)
  | GenNode 1 [GenLeaf n] => Some (TInterface n)
  | GenNode 2 [GenLeaf n] => Some (TBasic n)
  | GenNode 3 [g'] => match rtype_decode g' with Some e => Some (TPtr e) | None => None end
  | GenNode 4 [GenNode 0 gi; GenNode 0 go] =>
      match sequence_opt (map rtype_decode gi), sequence_opt (map rtype_decode go) with
      | Some ins, Some outs => Some (TFunc ins outs)
      | _, _ => None
      end
  | _ => None
  end.

Lemma sequence_opt_decode (l : list rtype) :
  Forall (fun t => rtype_decode (rtype_encode t) = Some t) l ->
  sequence_opt (map rtype_decode (map rtype_encode l)) = Some l.
Proof.
  induction 1 as [|x l Hx _ IH]; simpl; [reflexivity|].
  rewrite Hx, IH. reflexivity.
Qed.

Lemma rtype_decode_encode (t : rtype) : rtype_decode (rtype_encode t) = Some t.
Proof.
  induction t as [n|n|n|e IH|ins outs Hi Ho] using rtype_ind; simpl; try reflexivity.
  - rewrite IH. reflexivity.
  - rewrite (sequence_opt_decode _ Hi), (sequence_opt_decode _ Ho). reflexivity.
Qed.

#[global] Instance rtype_eq_dec : EqDecision rtype.
Proof.
  intros x y.
  destruct (decide (rtype_encode x = rtype_encode y)) as [He|Hne].
  - left. apply (f_equal rtype_decode) in He.
    rewrite !rtype_decode_encode in He. congruence.
  - right. intros ->. apply Hne. reflexivity.
Defined.

#[global] Instance rtype_countable : Countable rtype :=
  inj_countable rtype_encode rtype_decode rtype_decode_encode.

(** [Type.Kind()], [Type.NumIn()], [Type.In(i)], [Type.NumOut()],
    [Type.Out(i)], [Type.Elem()].  Go panics where these return [None]. *)
Definition rtype_Kind (t : rtype) : reflect_Kind :=
  match t with
  | TStruct _ => Struct
  | TInterface _ => Interface
  | TBasic _ => Basic
  | TPtr _ => Ptr
  | TFunc _ _ => Func
  end.

Definition rtype_NumIn (t : rtype) : Z :=
  match t with TFunc ins _ => Z.of_nat (length ins) | _ => 0 end.

Definition rtype_NumOut (t : rtype) : Z :=
  match t with TFunc _ outs => Z.of_nat (length outs) | _ => 0 end.

Definition rtype_In (t : rtype) (i : nat) : reflect_Type :=
  match t with TFunc ins _ => ins !! i | _ => None end.

Definition rtype_Out (t : rtype) (i : nat) : reflect_Type :=
  match t with TFunc _ outs => outs !! i | _ => None end.

Definition rtype_Elem (t : rtype) : reflect_Type :=
  match t with TPtr e => Some e | _ => None end.

(** The element types of the pointer types [* io.Writer] and [* error],
    as the source obtains them with [reflect.TypeOf(...).Elem()]. *)
Definition io_Writer_type : reflect_Type := rtype_Elem (TPtr (TInterface "io.Writer")).
Definition error_type : reflect_Type := rtype_Elem (TPtr (TInterface "error")).

(** ** The resource object model

    The resource records are declared in [pkg/api], outside this file; each
    record below has the fields that the render functions read, under the
    names the source uses. *)

(** [labels.Set], a [map[string]string] *)
Definition labels_Set := gmap string string.

Module Container.
(** Modelled from the spec: [api.Container], declared in [pkg/api]; the
    containers and their images, which the image list is made from. *)
Record t := mk { Image : string }.
End Container.

Module ContainerManifest.
(** Modelled from the spec: [api.ContainerManifest], declared in [pkg/api]; the
    containers and their images, which the image list is made from. *)
Record t := mk { Containers : list Container.t }.
End ContainerManifest.

Module PodSpec.
(** Modelled from the spec: [api.PodSpec], declared in [pkg/api]; the
    containers and their images, which the image list is made from. *)
Record t := mk { Containers : list Container.t }.
(** [api.PodSpec{}] *)
Definition zero : t := mk [].
End PodSpec.

Module PodState.
(** Modelled from the spec: [api.PodState], declared in [pkg/api]; the
    fields that the render functions read. *)
Record t := mk { Manifest : ContainerManifest.t; Status : string;
                 Host : string; HostIP : string }.
End PodState.

Module Pod.
(** Modelled from the spec: [api.Pod], declared in [pkg/api]; the
    fields that the render functions read. *)
Record t := mk { Name : string; Labels : labels_Set;
                 DesiredState : PodState.t; CurrentState : PodState.t }.
End Pod.

Module PodList.
(** Modelled from the spec: [api.PodList], declared in [pkg/api]; the
    fields that the render functions read. *)
Record t := mk { Items : list Pod.t }.
End PodList.

Module PodTemplateSpec.
(** Modelled from the spec: [api.PodTemplateSpec], declared in [pkg/api]; the
    fields that the render functions read. *)
Record t := mk { Spec : PodSpec.t }.
End PodTemplateSpec.

Module ReplicationControllerSpec.
(** Modelled from the spec: [api.ReplicationControllerSpec], declared in [pkg/api]; the
    fields that the render functions read. *)
Record t := mk { Replicas : Z; Selector : labels_Set; Template : PodTemplateSpec.t }.
End ReplicationControllerSpec.

Module ReplicationController.
(** Modelled from the spec: [api.ReplicationController], declared in [pkg/api]; the
    fields that the render functions read. *)
Record t := mk { Name : string; Spec : ReplicationControllerSpec.t }.
End ReplicationController.

Module ReplicationControllerList.
(** Modelled from the spec: [api.ReplicationControllerList], declared in [pkg/api]; the
    fields that the render functions read. *)
Record t := mk { Items : list ReplicationController.t }.
End ReplicationControllerList.

Module ServiceSpec.
(** Modelled from the spec: [api.ServiceSpec], declared in [pkg/api]; the
    fields that the render functions read. *)
Record t := mk { Port : Z; Selector : labels_Set; PortalIP : string }.
End ServiceSpec.

Module Service.
(** Modelled from the spec: [api.Service], declared in [pkg/api]; the
    fields that the render functions read. *)
Record t := mk { Name : string; Labels : labels_Set; Spec : ServiceSpec.t }.
End Service.

Module ServiceList.
(** Modelled from the spec: [api.ServiceList], declared in [pkg/api]; the
    fields that the render functions read. *)
Record t := mk { Items : list Service.t }.
End ServiceList.

Module Minion.
(** Modelled from the spec: [api.Minion], declared in [pkg/api]; the
    fields that the render functions read. *)
Record t := mk { Name : string }.
End Minion.

Module MinionList.
(** Modelled from the spec: [api.MinionList], declared in [pkg/api]; the
    fields that the render functions read. *)
Record t := mk { Items : list Minion.t }.
End MinionList.

Module Status.
(** Modelled from the spec: [api.Status], declared in [pkg/api]; the
    fields that the render functions read. *)
Record t := mk { Status : string }.
End Status.

Module ObjectReference.
(** Modelled from the spec: [api.ObjectReference], declared in [pkg/api]; the
    fields that the render functions read. *)
Record t := mk { Kind : string; Name : string }.
End ObjectReference.

Module Event.
(** Modelled from the spec: [api.Event], declared in [pkg/api]; the
    fields that the render functions read. *)
Record t := mk { InvolvedObject : ObjectReference.t; Status : string;
                 Reason : string; Message : string }.
End Event.

Module EventList.
(** Modelled from the spec: [api.EventList], declared in [pkg/api]; the
    fields that the render functions read. *)
Record t := mk { Items : list Event.t }.
End EventList.

(** A [runtime.Object]: an interface value holding a pointer to one of the
    resource records, a value of some other dynamic type, or nil. *)
Inductive Object :=
| ObjPod (pod : Pod.t)
| ObjPodList (podList : PodList.t)
| ObjReplicationController (controller : ReplicationController.t)
| ObjReplicationControllerList (list : ReplicationControllerList.t)
| ObjService (svc : Service.t)
| ObjServiceList (list : ServiceList.t)
| ObjMinion (minion : Minion.t)
| ObjMinionList (list : MinionList.t)
| ObjStatus (status : Status.t)
| ObjEvent (event : Event.t)
| ObjEventList (list : EventList.t)
| ObjOther (dynamic : rtype) (repr : string)
| ObjNil.

Definition api (name : string) : rtype := TPtr (TStruct ("api." +:+ name)).

(** [reflect.TypeOf(obj)] *)
Definition reflect_TypeOf (obj : Object) : reflect_Type :=
  match obj with
  | ObjPod _ => Some (api "Pod")
  | ObjPodList _ => Some (api "PodList")
  | ObjReplicationController _ => Some (api "ReplicationController")
  | ObjReplicationControllerList _ => Some (api "ReplicationControllerList")
  | ObjService _ => Some (api "Service")
  | ObjServiceList _ => Some (api "ServiceList")
  | ObjMinion _ => Some (api "Minion")
  | ObjMinionList _ => Some (api "MinionList")
  | ObjStatus _ => Some (api "Status")
  | ObjEvent _ => Some (api "Event")
  | ObjEventList _ => Some (api "EventList")
  | ObjOther dynamic _ => Some dynamic
  | ObjNil => None
  end.

(** ** Errors and the operands of [fmt] verbs

    An error made by [fmt.Errorf] keeps its format string and its operands;
    an error made by a collaborator (the writer, the encoder, the template
    parser, the file system) is an [ErrNew]. *)
Inductive value :=
| VString (s : string)
| VInt (i : Z)
| VLabels (set : labels_Set)
| VObject (obj : Object)
| VType (t : reflect_Type)
| VOf (t : reflect_Type)          (* a Go value known by its dynamic type *)
| VError (err : error)
with error :=
| fmt_Errorf (format : string) (a : list value)
| ErrNew (text : string).

(** [io.ErrShortWrite] *)
Definition io_ErrShortWrite : error := ErrNew "short write".

(** ** Collaborators

    What the file calls in other packages and does not define: the label
    formatter, the image list of a pod spec, the conversion scheme, the
    versioned encoder, [json.Indent], the template parser, the file system,
    the rune counter of [unicode/utf8] and the formatting of operands that
    no render function of this file passes to [fmt].  Go's [(T, error)]
    results are pairs. *)
Class Collaborators := {
  labels_Set_String : labels_Set -> string;
  makeImageList : PodSpec.t -> string;
  Scheme_Convert : ContainerManifest.t -> PodSpec.t -> PodSpec.t * option error;
  VersionInterfaces : Type;
  latest_InterfacesFor : string -> VersionInterfaces * option error;
  Codec_Encode : VersionInterfaces -> Object -> string * option error;
  json_Indent : string -> string -> string -> string -> string * option error;
  template_Template : Type;
  template_Parse : string -> string -> template_Template * option error;
  ioutil_ReadFile : string -> string * option error;
  utf8_RuneCount : string -> Z;
  fmt_other : ascii -> value -> string
}.

(** ** [fmt]

    [%s], [%d] and [%v] on the operands the render functions pass: a string
    prints as itself, an [int] in decimal, a [labels.Set] through its
    [String] method. *)
Definition fmt_operand `{Collaborators} (verb : ascii) (v : value) : string :=
  match v with
  | VString s =>
      if Ascii.eqb verb "s" || Ascii.eqb verb "v" then s else fmt_other verb v
  | VInt i =>
      if Ascii.eqb verb "d" || Ascii.eqb verb "v"
      then NilZero.string_of_int (Z.to_int i) else fmt_other verb v
  | VLabels set =>
      if Ascii.eqb verb "s" || Ascii.eqb verb "v"
      then labels_Set_String set else fmt_other verb v
  | _ => fmt_other verb v
  end.

Fixpoint fmt_Sprintf `{Collaborators} (format : string) (a : list value) : string :=
  match format with
  | EmptyString => EmptyString
  | String c rest =>
      if Ascii.eqb c "%" then
        match rest with
        | EmptyString => "%!(NOVERB)"
        | String verb rest' =>
            if Ascii.eqb verb "%" then String "%" (fmt_Sprintf rest' a)
            else match a with
                 | v :: a' => fmt_operand verb v +:+ fmt_Sprintf rest' a'
                 | [] => "%!" +:+ String verb "(MISSING)" +:+ fmt_Sprintf rest' []
                 end
        end
      else String c (fmt_Sprintf rest a)
  end.

(** ** Programs over a writer

    A Go function that receives an [io.Writer] can call its [Write] method
    and look at the result; it can also log through [glog].  Such a function
    is a [prog]: a tree of [Write] calls, each continued with the result that
    the writer gives. *)
Inductive prog (A : Type) : Type :=
| Ret (a : A)
| Write (p : string) (k : Z * option error -> prog A)
| Glog (format : string) (a : list value) (k : prog A).
Arguments Ret {A} a.
Arguments Write {A} p k.
Arguments Glog {A} format a k.

Fixpoint prog_bind {A B} (f : A -> prog B) (p : prog A) : prog B :=
  match p with
  | Ret a => f a
  | Write b k => Write b (fun r => prog_bind f (k r))
  | Glog format a k => Glog format a (prog_bind f k)
  end.

#[global] Instance prog_ret : MRet prog := @Ret.
#[global] Instance prog_mbind : MBind prog := @prog_bind.

(** [w.Write(p)] *)
Definition w_Write (p : string) : prog (Z * option error) := Write p Ret.

(** [glog.Errorf(format, a...)] *)
Definition glog_Errorf (format : string) (a : list value) : prog unit :=
  Glog format a (Ret tt).

(** [fmt.Fprintf(w, format, a...)]: one [Write] of the formatted text *)
Definition fmt_Fprintf `{Collaborators} (format : string) (a : list value)
  : prog (Z * option error) :=
  w_Write (fmt_Sprintf format a).

(** Writers: anything with a [Write] method. *)
Class io_Writer (W : Type) := io_Write : W -> string -> (Z * option error) * W.

Section run.
Context {W : Type} `{io_Writer W}.

(** Running a program against a writer: the result and the writer after. *)
Fixpoint run {A} (p : prog A) (w : W) : A * W :=
  match p with
  | Ret a => (a, w)
  | Write b k => let '(r, w') := io_Write w b in run (k r) w'
  | Glog _ _ k => run k w
  end.

(** The [Write] requests that the program issues on that run, in order. *)
Fixpoint requests {A} (p : prog A) (w : W) : list string :=
  match p with
  | Ret _ => []
  | Write b k => let '(r, w') := io_Write w b in b :: requests (k r) w'
  | Glog _ _ k => requests k w
  end.

(** What the program logs on that run. *)
Fixpoint logged {A} (p : prog A) (w : W) : list (string * list value) :=
  match p with
  | Ret _ => []
  | Write b k => let '(r, w') := io_Write w b in logged (k r) w'
  | Glog format a k => (format, a) :: logged k w
  end.
End run.

(** A writer as its caller sees it: [respond] answers a [Write] from the
    requests received so far and the new one; [received] is that history.
    Every deterministic writer is one of these. *)
Record Sink := mkSink {
  respond : list string -> string -> Z * option error;
  received : list string
}.

#[global] Instance Sink_Writer : io_Writer Sink := fun s p =>
  (respond s (received s) p, mkSink (respond s) (received s ++ [p])).

(** The bytes handed to the writer so far. *)
Definition Sink_bytes (s : Sink) : string := fold_right String.append "" (received s).

(** A [bytes.Buffer]: accepts everything. *)
Definition bytes_Buffer : Sink := mkSink (fun _ p => (len p, None)) [].

(** A writer that fails every [Write] with [err], accepting nothing. *)
Definition failing_Writer (err : error) : Sink := mkSink (fun _ _ => (0, Some err)) [].

(** ** The column writer ([text/tabwriter])

    [PrintObj] wraps its output in a [tabwriter.Writer].  This is a model of
    that standard-library type as the Go releases of the source's time have
    it, with [flags = 0] (the configuration [PrintObj] constructs): text is
    split into tab-terminated cells, a column is a run of consecutive lines
    with a cell in it, and [Flush] writes the lines with every cell of a
    column padded to the column's width.

    Go keeps the cells' text in one buffer and their sizes in the cells; here
    each cell carries its text.  [b.lines] is [finished b ++ [line b]]. *)
Module tabwriter.
Section Writer.
Context `{Collaborators} {W : Type} `{io_Writer W}.

Definition Escape : ascii := ascii_of_nat 255.

Record cell := mkCell { text : string; width : Z; htab : bool }.

Definition size (c : cell) : Z := len (text c).

Record Writer := mk {
  output : W;
  minwidth : Z;
  tabwidth : Z;
  padding : Z;
  padchar : ascii;
  flags : Z;
  finished : list (list cell);   (* the lines before the one being written *)
  line : list cell;              (* the terminated cells of the last line *)
  cur : cell;                    (* [b.cell]: the cell being written *)
  uncounted : string;            (* [b.buf[b.pos:]]: text not yet in [cur]'s width *)
  endChar : option ascii         (* inside an escaped segment *)
}.

Definition with_output (b : Writer) (out : W) : Writer :=
  mk out (minwidth b) (tabwidth b) (padding b) (padchar b) (flags b)
     (finished b) (line b) (cur b) (uncounted b) (endChar b).

Definition with_cells (b : Writer) (finished : list (list cell)) (line : list cell)
    (cur : cell) (uncounted : string) (endChar : option ascii) : Writer :=
  mk (output b) (minwidth b) (tabwidth b) (padding b) (padchar b) (flags b)
     finished line cur uncounted endChar.

Definition addLine (b : Writer) : Writer :=
  with_cells b (finished b ++ [line b]) [] (cur b) (uncounted b) (endChar b).

Definition reset (b : Writer) : Writer :=
  with_cells b [] [] (mkCell "" 0 false) "" None.

Definition NewWriter (out : W) (minwidth tabwidth padding : Z) (padchar : ascii)
    (flags : Z) : Writer :=
  reset (mk out minwidth tabwidth padding padchar flags [] [] (mkCell "" 0 false) "" None).

Definition append (b : Writer) (t : string) : Writer :=
  with_cells b (finished b) (line b)
    (mkCell (text (cur b) +:+ t) (width (cur b)) (htab (cur b)))
    (uncounted b +:+ t) (endChar b).

Definition updateWidth (b : Writer) : Writer :=
  with_cells b (finished b) (line b)
    (mkCell (text (cur b)) (width (cur b) + utf8_RuneCount (uncounted b)) (htab (cur b)))
    "" (endChar b).

Definition startEscape (b : Writer) (ch : ascii) : Writer :=
  with_cells b (finished b) (line b) (cur b) (uncounted b) (Some ch).

(** With [flags = 0] the only escaped segments are those between two
    [Escape] bytes; the bytes stay in the text and are not counted. *)
Definition endEscape (b : Writer) : Writer :=
  let b := updateWidth b in
  with_cells b (finished b) (line b)
    (mkCell (text (cur b)) (width (cur b) - 2) (htab (cur b))) "" None.

Definition terminateCell (b : Writer) (htab : bool) : Z * Writer :=
  let line' := line b ++ [mkCell (text (cur b)) (width (cur b)) htab] in
  (Z.of_nat (length line'),
   with_cells b (finished b) line' (mkCell "" 0 false) (uncounted b) (endChar b)).

Definition newline : string := String NL "".
Definition tabs : string := lit "\t\t\t\t\t\t\t\t".
Definition padbytes (b : Writer) : string :=
  fold_right String EmptyString (replicate 8 (padchar b)).

(** [writeN]: the chunks that the loop hands to [write0]. *)
Fixpoint writeN_loop (fuel : nat) (src : string) (n : Z) : list string :=
  match fuel with
  | O => [substring 0 (Z.to_nat n) src]
  | S fuel' =>
      if len src <? n then src :: writeN_loop fuel' src (n - len src)
      else [substring 0 (Z.to_nat n) src]
  end.

Definition writeN (src : string) (n : Z) : list string :=
  writeN_loop (Z.to_nat n) src n.

Definition writePadding (b : Writer) (textw cellw : Z) (useTabs : bool) : list string :=
  if Ascii.eqb (padchar b) TAB || useTabs then
    if tabwidth b =? 0 then []
    else
      let cellw := Z.quot (cellw + tabwidth b - 1) (tabwidth b) * tabwidth b in
      let n := cellw - textw in
      writeN tabs (Z.quot (n + tabwidth b - 1) (tabwidth b))
  else writeN (padbytes b) (cellw - textw).

(** One line of [writeLines]: its cells from index [j] on, left-aligned. *)
Fixpoint writeCells (b : Writer) (widths : list Z) (j : nat) (cells : list cell)
  : list string :=
  match cells with
  | [] => []
  | c :: rest =>
      let pad := match widths !! j with
                 | Some w => writePadding b (width c) w false
                 | None => []
                 end in
      (if size c =? 0 then pad else text c :: pad) ++ writeCells b widths (S j) rest
  end.

(** A buffered line and whether it is the last one ([i+1 == len(b.lines)]):
    the last line has no newline yet, and the text of the cell being written,
    empty at every [Flush], is written in its place. *)
Definition writeLine (b : Writer) (widths : list Z) (l : list cell * bool) : list string :=
  writeCells b widths 0 (fst l) ++ [if snd l then "" else newline].

Definition writeLines (b : Writer) (widths : list Z) (ls : list (list cell * bool))
  : list string :=
  flat_map (writeLine b widths) ls.

(** The loop of [format] at column [length widths]: lines without a cell in
    the column are written as they are; a run of lines with one is a column
    block, formatted by [rec] with the block's width pushed on [widths]. *)
Fixpoint format_loop (b : Writer)
    (rec : list Z -> list (list cell * bool) -> list string)
    (widths : list Z) (ls block : list (list cell * bool)) (colwidth : Z) : list string :=
  let column := length widths in
  let close := match block with [] => [] | _ => rec (widths ++ [colwidth]) block end in
  match ls with
  | [] => close
  | l :: rest =>
      if Z.of_nat (length (fst l)) - 1 <=? Z.of_nat column then
        close ++ writeLine b widths l ++ format_loop b rec widths rest [] (minwidth b)
      else
        let w := match fst l !! column with
                 | Some c => width c + padding b
                 | None => colwidth
                 end in
        format_loop b rec widths rest (block ++ [l]) (if colwidth <? w then w else colwidth)
  end.

Fixpoint format (fuel : nat) (b : Writer) (widths : list Z)
    (ls : list (list cell * bool)) : list string :=
  match fuel with
  | O => writeLines b widths ls
  | S fuel' => format_loop b (format fuel' b) widths ls [] (minwidth b)
  end.

Fixpoint mark_last {A} (l : list A) : list (A * bool) :=
  match l with
  | [] => []
  | [x] => [(x, true)]
  | x :: rest => (x, false) :: mark_last rest
  end.

(** [write0] on each chunk in turn; the first failed or short write ends it. *)
Fixpoint write0_all (chunks : list string) (out : W) : option error * W :=
  match chunks with
  | [] => (None, out)
  | buf :: rest =>
      let '((n, err), out') := io_Write out buf in
      let err := match err with
                 | None => if n =? len buf then None else Some io_ErrShortWrite
                 | Some e => Some e
                 end in
      match err with
      | Some e => (Some e, out')
      | None => write0_all rest out'
      end
  end.

(** [Flush]: the buffer is reset also when a write fails. *)
Definition Flush (b : Writer) : option error * Writer :=
  let b := if 0 <? size (cur b) then
             let b := match endChar b with Some _ => endEscape b | None => b end in
             snd (terminateCell b false)
           else b in
  let lines := finished b ++ [line b] in
  let depth := S (list_max (map (@length cell) lines)) in
  let '(err, out) := write0_all (format depth b [] (mark_last lines)) (output b) in
  (err, reset (with_output b out)).

(** [Write]: byte by byte; [n] counts the bytes consumed. *)
Fixpoint Write_from (b : Writer) (buf : string) (n : Z) : (Z * option error) * Writer :=
  match buf with
  | EmptyString => ((n, None), b)
  | String ch rest =>
      match endChar b with
      | None =>
          if Ascii.eqb ch TAB || Ascii.eqb ch VT || Ascii.eqb ch NL || Ascii.eqb ch FF then
            (* end of cell *)
            let b := updateWidth b in
            let '(ncells, b) := terminateCell b (Ascii.eqb ch TAB) in
            if Ascii.eqb ch NL || Ascii.eqb ch FF then
              (* terminate line *)
              let b := addLine b in
              if Ascii.eqb ch FF || (ncells =? 1) then
                let '(err, b) := Flush b in
                match err with
                | Some e => ((n + 1, Some e), b)
                | None => Write_from b rest (n + 1)
                end
              else Write_from b rest (n + 1)
            else Write_from b rest (n + 1)
          else if Ascii.eqb ch Escape then
            (* start of escaped sequence *)
            let b := updateWidth b in
            Write_from (startEscape (append b (String ch "")) Escape) rest (n + 1)
          else Write_from (append b (String ch "")) rest (n + 1)
      | Some e =>
          (* inside escape *)
          let b := append b (String ch "") in
          if Ascii.eqb ch e then Write_from (endEscape b) rest (n + 1)
          else Write_from b rest (n + 1)
      end
  end.

Definition Write (b : Writer) (buf : string) : (Z * option error) * Writer :=
  Write_from b buf 0.

End Writer.
End tabwriter.

#[global] Instance tabwriter_io_Writer `{Collaborators} {W} `{io_Writer W}
  : io_Writer (tabwriter.Writer (W := W)) := tabwriter.Write.

(** ** Printers *)

Section Printers.
Context `{Collaborators}.

(** *** [JSONPrinter], [YAMLPrinter], [TemplatePrinter] *)

Record JSONPrinter := mkJSONPrinter { JSONPrinter_version : string }.

Record YAMLPrinter := mkYAMLPrinter { YAMLPrinter_version : string }.

Record TemplatePrinter := mkTemplatePrinter {
  TemplatePrinter_version : string;
  TemplatePrinter_template : template_Template
}.

(** [JSONPrinter.PrintObj(obj, w)] *)
Definition JSONPrinter_PrintObj (j : JSONPrinter) (obj : Object) : prog (option error) :=
  let '(vi, err) := latest_InterfacesFor (JSONPrinter_version j) in
  match err with
  | Some err => Ret (Some err)
  | None =>
      let '(data, err) := Codec_Encode vi obj in
      match err with
      | Some err => Ret (Some err)
      | None =>
          let dst := "" in
          let '(dst, err) := json_Indent dst data "" "    " in
          let dst := dst +:+ String NL "" in
          '(_, err) ← w_Write dst;
          Ret err
      end
  end.

Definition JSONPrinter_IsVersioned (j : JSONPrinter) : bool := true.
Definition YAMLPrinter_IsVersioned (y : YAMLPrinter) : bool := true.
Definition TemplatePrinter_IsVersioned (t : TemplatePrinter) : bool := true.

(** [NewTemplatePrinter(version, tmpl)]: a nil printer with the error, or
    the printer. *)
Definition NewTemplatePrinter (version : string) (tmpl : string)
  : option TemplatePrinter * option error :=
  let '(t, err) := template_Parse "output" tmpl in
  match err with
  | Some err => (None, Some err)
  | None => (Some (mkTemplatePrinter version t), None)
  end.

(** *** [HumanReadablePrinter] *)

(** What a call returns to [PrintObj]: the handler's error result, or a
    panic. *)
Inductive outcome :=
| Returned (err : option error)
| Panicked (reason : string).

(** A [reflect.Value] as [Handler] and [PrintObj] use it: its type (nil for
    the zero Value) and, for a function, what
    [Call([]reflect.Value{reflect.ValueOf(obj), reflect.ValueOf(w)})[0]]
    does: the function's writes on [w] and the error it returns. *)
Record reflect_Value := mkValue {
  Value_Type : reflect_Type;
  Value_Call : Object -> prog outcome
}.

Definition Value_Kind (v : reflect_Value) : reflect_Kind :=
  match Value_Type v with
  | Some t => rtype_Kind t
  | None => Invalid
  end.

Definition Type_NumIn (t : reflect_Type) : Z := from_option rtype_NumIn 0 t.
Definition Type_NumOut (t : reflect_Type) : Z := from_option rtype_NumOut 0 t.
Definition Type_In (t : reflect_Type) (i : nat) : reflect_Type := t ≫= fun t => rtype_In t i.
Definition Type_Out (t : reflect_Type) (i : nat) : reflect_Type := t ≫= fun t => rtype_Out t i.

Record handlerEntry := mkHandlerEntry {
  columns : list string;
  printFunc : reflect_Value
}.

Record HumanReadablePrinter := mkHumanReadablePrinter {
  handlerMap : gmap reflect_Type handlerEntry;
  noHeaders : bool;
  lastType : reflect_Type
}.

Definition HumanReadablePrinter_IsVersioned (h : HumanReadablePrinter) : bool := false.

(** What [glog.Errorf] received, for the functions that have no writer. *)
Definition glog_entries := list (string * list value).

Definition validatePrintHandlerFunc (printFunc : reflect_Value) : option error :=
  if negb (bool_decide (Value_Kind printFunc = Func)) then
    Some (fmt_Errorf "invalid print handler. %#v is not a function."
            [VOf (Value_Type printFunc)])
  else
    let funcType := Value_Type printFunc in
    if bool_decide (Type_NumIn funcType ≠ 2) || bool_decide (Type_NumOut funcType ≠ 1) then
      Some (fmt_Errorf ("invalid print handler." +:+
                        "Must accept 2 parameters and return 1 value.") [])
    else if bool_decide (Type_In funcType 1 ≠ io_Writer_type)
            || bool_decide (Type_Out funcType 0 ≠ error_type) then
      Some (fmt_Errorf ("invalid print handler. The expected signature is: " +:+
                        "func handler(obj %v, w io.Writer) error")
              [VType (Type_In funcType 0)])
    else None.

(** [h.Handler(columns, printFunc)]: the error, the printer after the call
    and what was logged.  [printFunc] is given by its [reflect.ValueOf]. *)
Definition Handler (h : HumanReadablePrinter) (columns : list string)
    (printFunc : reflect_Value)
  : option error * HumanReadablePrinter * glog_entries :=
  let printFuncValue := printFunc in
  match validatePrintHandlerFunc printFuncValue with
  | Some err => (Some err, h, [("Unable to add print handler: %v", [VError err])])
  | None =>
      let objType := Type_In (Value_Type printFuncValue) 0 in
      (None,
       mkHumanReadablePrinter
         (<[objType := mkHandlerEntry columns printFuncValue]> (handlerMap h))
         (noHeaders h) (lastType h),
       [])
  end.

Definition podColumns := ["NAME"; "IMAGE(S)"; "HOST"; "LABELS"; "STATUS"].
Definition replicationControllerColumns := ["NAME"; "IMAGE(S)"; "SELECTOR"; "REPLICAS"].
Definition serviceColumns := ["NAME"; "LABELS"; "SELECTOR"; "IP"; "PORT"].
Definition minionColumns := ["NAME"].
Definition statusColumns := ["STATUS"].
Definition eventColumns := ["NAME"; "KIND"; "STATUS"; "REASON"; "MESSAGE"].

Definition unknown (data : string) : prog (option error) :=
  '(_, err) ← fmt_Fprintf "Unknown object: %s" [VString data];
  Ret err.

Definition printHeader (columnNames : list string) : prog (option error) :=
  '(_, err) ← fmt_Fprintf (lit "%s\n") [VString (strings_Join columnNames (lit "\t"))];
  match err with
  | Some err => Ret (Some err)
  | None => Ret None
  end.

Definition podHostString (host ip : string) : string :=
  if String.eqb host "" && String.eqb ip "" then "<unassigned>"
  else host +:+ "/" +:+ ip.

Definition printPod (pod : Pod.t) : prog (option error) :=
  (* TODO: remove me when pods are converted *)
  let spec := PodSpec.zero in
  let '(spec, err) := Scheme_Convert (PodState.Manifest (Pod.DesiredState pod)) spec in
  _ ← match err with
      | Some err => glog_Errorf "Unable to convert pod manifest: %v" [VError err]
      | None => Ret tt
      end;
  '(_, err) ← fmt_Fprintf (lit "%s\t%s\t%s\t%s\t%s\n")
                [VString (Pod.Name pod); VString (makeImageList spec);
                 VString (podHostString (PodState.Host (Pod.CurrentState pod))
                                        (PodState.HostIP (Pod.CurrentState pod)));
                 VLabels (Pod.Labels pod);
                 VString (PodState.Status (Pod.CurrentState pod))];
  Ret err.

(** [for _, x := range items { if err := f(&x, w); err != nil { return err } };
    return nil], the loop of every list render function. *)
Fixpoint range_print {A} (f : A -> prog (option error)) (items : list A)
  : prog (option error) :=
  match items with
  | [] => Ret None
  | x :: rest =>
      err ← f x;
      match err with
      | Some err => Ret (Some err)
      | None => range_print f rest
      end
  end.

Definition printPodList (podList : PodList.t) : prog (option error) :=
  range_print printPod (PodList.Items podList).

Definition printReplicationController (controller : ReplicationController.t)
  : prog (option error) :=
  '(_, err) ← fmt_Fprintf (lit "%s\t%s\t%s\t%d\n")
                [VString (ReplicationController.Name controller);
                 VString (makeImageList
                            (PodTemplateSpec.Spec
                               (ReplicationControllerSpec.Template
                                  (ReplicationController.Spec controller))));
                 VLabels (ReplicationControllerSpec.Selector
                            (ReplicationController.Spec controller));
                 VInt (ReplicationControllerSpec.Replicas
                         (ReplicationController.Spec controller))];
  Ret err.

Definition printReplicationControllerList (list : ReplicationControllerList.t)
  : prog (option error) :=
  range_print printReplicationController (ReplicationControllerList.Items list).

Definition printService (svc : Service.t) : prog (option error) :=
  '(_, err) ← fmt_Fprintf (lit "%s\t%s\t%s\t%s\t%d\n")
                [VString (Service.Name svc); VLabels (Service.Labels svc);
                 VLabels (ServiceSpec.Selector (Service.Spec svc));
                 VString (ServiceSpec.PortalIP (Service.Spec svc));
                 VInt (ServiceSpec.Port (Service.Spec svc))];
  Ret err.

Definition printServiceList (list : ServiceList.t) : prog (option error) :=
  range_print printService (ServiceList.Items list).

Definition printMinion (minion : Minion.t) : prog (option error) :=
  '(_, err) ← fmt_Fprintf (lit "%s\n") [VString (Minion.Name minion)];
  Ret err.

Definition printMinionList (list : MinionList.t) : prog (option error) :=
  range_print printMinion (MinionList.Items list).

Definition printStatus (status : Status.t) : prog (option error) :=
  '(_, err) ← fmt_Fprintf (lit "%v\n") [VString (Status.Status status)];
  Ret err.

Definition printEvent (event : Event.t) : prog (option error) :=
  '(_, err) ← fmt_Fprintf (lit "%s\t%s\t%s\t%s\t%s\n")
                [VString (ObjectReference.Name (Event.InvolvedObject event));
                 VString (ObjectReference.Kind (Event.InvolvedObject event));
                 VString (Event.Status event);
                 VString (Event.Reason event);
                 VString (Event.Message event)];
  Ret err.

Definition printEventList (list : EventList.t) : prog (option error) :=
  range_print printEvent (EventList.Items list).

(** [reflect.ValueOf(f)] for a render function [f] whose first parameter has
    type [param]: calling it with an object of another dynamic type panics
    inside [reflect]. *)
Definition func_Value (param : rtype) (call : Object -> option (prog (option error)))
  : reflect_Value :=
  mkValue (Some (TFunc [param; TInterface "io.Writer"] [TInterface "error"]))
    (fun obj =>
       match call obj with
       | Some p => err ← p; Ret (Returned err)
       | None => Ret (Panicked "reflect: Call using a value of another type")
       end).

Definition ValueOf_printPod : reflect_Value :=
  func_Value (api "Pod")
    (fun obj => match obj with ObjPod pod => Some (printPod pod) | _ => None end).
Definition ValueOf_printPodList : reflect_Value :=
  func_Value (api "PodList")
    (fun obj => match obj with ObjPodList l => Some (printPodList l) | _ => None end).
Definition ValueOf_printReplicationController : reflect_Value :=
  func_Value (api "ReplicationController")
    (fun obj => match obj with
                | ObjReplicationController c => Some (printReplicationController c)
                | _ => None
                end).
Definition ValueOf_printReplicationControllerList : reflect_Value :=
  func_Value (api "ReplicationControllerList")
    (fun obj => match obj with
                | ObjReplicationControllerList l => Some (printReplicationControllerList l)
                | _ => None
                end).
Definition ValueOf_printService : reflect_Value :=
  func_Value (api "Service")
    (fun obj => match obj with ObjService svc => Some (printService svc) | _ => None end).
Definition ValueOf_printServiceList : reflect_Value :=
  func_Value (api "ServiceList")
    (fun obj => match obj with ObjServiceList l => Some (printServiceList l) | _ => None end).
Definition ValueOf_printMinion : reflect_Value :=
  func_Value (api "Minion")
    (fun obj => match obj with ObjMinion m => Some (printMinion m) | _ => None end).
Definition ValueOf_printMinionList : reflect_Value :=
  func_Value (api "MinionList")
    (fun obj => match obj with ObjMinionList l => Some (printMinionList l) | _ => None end).
Definition ValueOf_printStatus : reflect_Value :=
  func_Value (api "Status")
    (fun obj => match obj with ObjStatus s => Some (printStatus s) | _ => None end).
Definition ValueOf_printEvent : reflect_Value :=
  func_Value (api "Event")
    (fun obj => match obj with ObjEvent e => Some (printEvent e) | _ => None end).
Definition ValueOf_printEventList : reflect_Value :=
  func_Value (api "EventList")
    (fun obj => match obj with ObjEventList l => Some (printEventList l) | _ => None end).

(** [addDefaultHandlers]: the eleven [h.Handler] calls, in the source's
    order; their errors are dropped. *)
Definition defaultHandlers : list (list string * reflect_Value) :=
  [ (podColumns, ValueOf_printPod);
    (podColumns, ValueOf_printPodList);
    (replicationControllerColumns, ValueOf_printReplicationController);
    (replicationControllerColumns, ValueOf_printReplicationControllerList);
    (serviceColumns, ValueOf_printService);
    (serviceColumns, ValueOf_printServiceList);
    (minionColumns, ValueOf_printMinion);
    (minionColumns, ValueOf_printMinionList);
    (statusColumns, ValueOf_printStatus);
    (eventColumns, ValueOf_printEvent);
    (eventColumns, ValueOf_printEventList) ].

Definition addDefaultHandlers (h : HumanReadablePrinter)
  : HumanReadablePrinter * glog_entries :=
  fold_left
    (fun acc entry =>
       let '(_, h', log) := Handler (fst acc) (fst entry) (snd entry) in
       (h', snd acc ++ log))
    defaultHandlers (h, []).

Definition NewHumanReadablePrinter (noHeaders : bool)
  : HumanReadablePrinter * glog_entries :=
  let printer := mkHumanReadablePrinter ∅ noHeaders None in
  addDefaultHandlers printer.

(** The body of [HumanReadablePrinter.PrintObj], between the construction of
    the column writer [w] and the deferred [w.Flush()]: its writes go to [w];
    it yields what [PrintObj] returns and the printer after the call. *)
Definition PrintObj_body (h : HumanReadablePrinter) (obj : Object)
  : prog (outcome * HumanReadablePrinter) :=
  let t := reflect_TypeOf obj in
  match handlerMap h !! t with
  | Some handler =>
      h ← (if negb (noHeaders h) && bool_decide (t ≠ lastType h) then
             _ ← printHeader (columns handler);
             Ret (mkHumanReadablePrinter (handlerMap h) (noHeaders h) t)
           else Ret h);
      resultValue ← Value_Call (printFunc handler) obj;
      Ret (resultValue, h)
  | None =>
      Ret (Returned (Some (fmt_Errorf "error: unknown type %#v" [VObject obj])), h)
  end.

(** [h.PrintObj(obj, output)]: what the call returns, the printer and the
    output writer after it. *)
Definition PrintObj {W} `{io_Writer W} (h : HumanReadablePrinter) (obj : Object)
    (output : W) : outcome * HumanReadablePrinter * W :=
  let w := tabwriter.NewWriter output 20 5 3 " " 0 in
  let '(result, h, w) := run (PrintObj_body h obj) w in
  (* defer w.Flush() *)
  let '(_, w) := tabwriter.Flush w in
  (result, h, tabwriter.output w).

(** *** [ResourcePrinter] and [GetPrinter] *)

(** The printers behind the [ResourcePrinter] interface: pointers to the
    four printer types (a [*TemplatePrinter] may be nil), or nil. *)
Inductive ResourcePrinter :=
| ptr_JSONPrinter (j : JSONPrinter)
| ptr_YAMLPrinter (y : YAMLPrinter)
| ptr_TemplatePrinter (t : option TemplatePrinter)
| ptr_HumanReadablePrinter (h : HumanReadablePrinter)
| nil_ResourcePrinter.

Definition GetPrinter (version format templateFile : string)
    (defaultPrinter : ResourcePrinter) : ResourcePrinter * option error :=
  if String.eqb format "json" then
    (ptr_JSONPrinter (mkJSONPrinter version), None)
  else if String.eqb format "yaml" then
    (ptr_YAMLPrinter (mkYAMLPrinter version), None)
  else if String.eqb format "template" then
    if len templateFile =? 0 then
      (nil_ResourcePrinter,
       Some (fmt_Errorf "template format specified but no template given" []))
    else
      let '(printer, err) := NewTemplatePrinter version templateFile in
      match err with
      | Some err =>
          (nil_ResourcePrinter,
           Some (fmt_Errorf (lit "error parsing template %s, %v\n")
                   [VString templateFile; VError err]))
      | None => (ptr_TemplatePrinter printer, None)
      end
  else if String.eqb format "templatefile" then
    if len templateFile =? 0 then
      (nil_ResourcePrinter,
       Some (fmt_Errorf "templatefile format specified but no template file given" []))
    else
      let '(data, err) := ioutil_ReadFile templateFile in
      match err with
      | Some err =>
          (nil_ResourcePrinter,
           Some (fmt_Errorf (lit "error reading template %s, %v\n")
                   [VString templateFile; VError err]))
      | None =>
          let '(printer, err) := NewTemplatePrinter version data in
          match err with
          | Some err =>
              (nil_ResourcePrinter,
               Some (fmt_Errorf (lit "error parsing template %s, %v\n")
                       [VString data; VError err]))
          | None => (ptr_TemplatePrinter printer, None)
          end
      end
  else if String.eqb format "" then
    (defaultPrinter, None)
  else
    (nil_ResourcePrinter,
     Some (fmt_Errorf "output format %q not recognized" [VString format])).

End Printers.

(** ** The other printers and helpers of the file *)

(** What [toVersionedMap], [YAMLPrinter.PrintObj] and
    [TemplatePrinter.PrintObj] call in other packages: [json.Unmarshal] into
    a [map[string]interface{}], [yaml.Marshal] and [Template.Execute].  The
    execution of a template writes on [w]; it is a program over the writer. *)
Class Codecs `{Collaborators} := {
  generic_map : Type;
  generic_map_empty : generic_map;
  json_Unmarshal : string -> generic_map -> generic_map * option error;
  yaml_Marshal : option generic_map -> string * option error;
  template_Execute : template_Template -> option generic_map -> prog (option error)
}.

Section OtherPrinters.
Context `{Codecs}.

(** [toVersionedMap(version, obj)]: a nil map with the error, or the map. *)
Definition toVersionedMap (version : string) (obj : Object)
  : option generic_map * option error :=
  let '(vi, err) := latest_InterfacesFor version in
  match err with
  | Some err => (None, Some err)
  | None =>
      let '(data, err) := Codec_Encode vi obj in
      match err with
      | Some err => (None, Some err)
      | None =>
          let outObj := generic_map_empty in
          let '(outObj, err) := json_Unmarshal data outObj in
          match err with
          | Some err => (None, Some err)
          | None => (Some outObj, None)
          end
      end
  end.

(** [fmt.Fprint(w, s)] for one string operand: one [Write] of the string *)
Definition fmt_Fprint (s : string) : prog (Z * option error) := w_Write s.

(** [YAMLPrinter.PrintObj(obj, w)] *)
Definition YAMLPrinter_PrintObj (y : YAMLPrinter) (obj : Object) : prog (option error) :=
  let '(outObj, err) := toVersionedMap (YAMLPrinter_version y) obj in
  match err with
  | Some err => Ret (Some err)
  | None =>
      let '(output, err) := yaml_Marshal outObj in
      match err with
      | Some err => Ret (Some err)
      | None =>
          '(_, err) ← fmt_Fprint output;
          Ret err
      end
  end.

(** [TemplatePrinter.PrintObj(obj, w)] *)
Definition TemplatePrinter_PrintObj (t : TemplatePrinter) (obj : Object)
  : prog (option error) :=
  let '(outObj, err) := toVersionedMap (TemplatePrinter_version t) obj in
  match err with
  | Some err => Ret (Some err)
  | None => template_Execute (TemplatePrinter_template t) outObj
  end.

End OtherPrinters.

Section OtherHelpers.
Context `{Collaborators}.

(** [printer.IsVersioned()] on a [ResourcePrinter]: the method of the
    printer behind the interface; none of the four methods reads its
    receiver, so a nil pointer answers too, and a nil interface panics
    ([None]). *)
Definition ResourcePrinter_IsVersioned (printer : ResourcePrinter) : option bool :=
  match printer with
  | ptr_JSONPrinter j => Some (JSONPrinter_IsVersioned j)
  | ptr_YAMLPrinter y => Some (YAMLPrinter_IsVersioned y)
  | ptr_TemplatePrinter _ => Some true
  | ptr_HumanReadablePrinter h => Some (HumanReadablePrinter_IsVersioned h)
  | nil_ResourcePrinter => None
  end.




End OtherHelpers.

(** The version that a versioned printer was made for. *)
Definition ResourcePrinter_version `{Collaborators} (printer : ResourcePrinter)
  : option string :=
  match printer with
  | ptr_JSONPrinter j => Some (JSONPrinter_version j)
  | ptr_YAMLPrinter y => Some (YAMLPrinter_version y)
  | ptr_TemplatePrinter (Some t) => Some (TemplatePrinter_version t)
  | _ => None
  end.


(** ** A concrete setting for examples

    Labels print as [k=v] joined by commas, the image list joins the
    container images, the conversion copies the containers, the encoder and
    the indenter are the simplest ones, no file exists, and text is ASCII
    (one rune per byte). *)
Definition demo : Collaborators := {|
  labels_Set_String := fun set =>
    strings_Join (map (fun kv => fst kv +:+ "=" +:+ snd kv) (map_to_list set)) ",";
  makeImageList := fun spec =>
    strings_Join (map Container.Image (PodSpec.Containers spec)) ",";
  Scheme_Convert := fun manifest _ =>
    (PodSpec.mk (ContainerManifest.Containers manifest), None);
  VersionInterfaces := string;
  latest_InterfacesFor := fun version =>
    if String.eqb version "v1beta1" then (version, None)
    else ("", Some (ErrNew "unsupported version"));
  Codec_Encode := fun _ obj =>
    match obj with
    | ObjNil => ("", Some (ErrNew "cannot encode nil"))
    | _ => ("{}", None)
    end;
  json_Indent := fun dst src _ _ => (dst +:+ src, None);
  template_Template := string;
  template_Parse := fun _ text =>
    if String.eqb text "{{" then ("", Some (ErrNew "unclosed action")) else (text, None);
  ioutil_ReadFile := fun _ => ("", Some (ErrNew "no such file or directory"));
  utf8_RuneCount := len;
  fmt_other := fun _ _ => "?"
|}.


(** [json.Indent] with its error result replaced by [err]. *)
Definition with_Indent_error (C : Collaborators)
    (err : string -> string -> string -> string -> option error) : Collaborators := {|
  labels_Set_String := @labels_Set_String C;
  makeImageList := @makeImageList C;
  Scheme_Convert := @Scheme_Convert C;
  VersionInterfaces := @VersionInterfaces C;
  latest_InterfacesFor := @latest_InterfacesFor C;
  Codec_Encode := @Codec_Encode C;
  json_Indent := fun dst src prefix indent =>
    (fst (@json_Indent C dst src prefix indent), err dst src prefix indent);
  template_Template := @template_Template C;
  template_Parse := @template_Parse C;
  ioutil_ReadFile := @ioutil_ReadFile C;
  utf8_RuneCount := @utf8_RuneCount C;
  fmt_other := @fmt_other C
|}.

Definition demo_service (name : string) (port : Z) : Service.t :=
  Service.mk name (<["app" := name]> ∅)
    (ServiceSpec.mk port (<["name" := name]> ∅) "10.0.0.1").


(** A new printer with headers enabled, a list of two services, a session
    and a value of a type that has no handler. *)
Definition demo_printer : HumanReadablePrinter :=
  fst (NewHumanReadablePrinter (H := demo) false).

Definition demo_services : Object :=
  ObjServiceList (ServiceList.mk [demo_service "a" 80; demo_service "b" 81]).

Definition demo_session : list Object :=
  [demo_services; ObjService (demo_service "c" 82); ObjService (demo_service "d" 83);
   ObjMinion (Minion.mk "node-1")].

Definition demo_unknown : Object := ObjOther (TBasic "int") "5".

(** The simplest codecs for [demo]: the map is the encoded text, YAML prints
    it as it is, and a template prints its own text. *)
Definition demo_codecs : Codecs (H := demo) := {|
  generic_map := string;
  generic_map_empty := "";
  json_Unmarshal := fun data _ => (data, None);
  yaml_Marshal := fun outObj => (from_option id "null" outObj, None);
  template_Execute := fun (t : @template_Template demo) _ => '(_, err) ← w_Write t; Ret err
|}.

Definition demo_template : template_Template (Collaborators := demo) := "{{.Name}}".

Definition demo_event : Event.t :=
  Event.mk (ObjectReference.mk "Pod" "web") "Running" "started" "container started".


(** ** Observations and specifications *)

Section Observations.
Context `{Collaborators} {W : Type} `{io_Writer W}.

(** The column writer that [PrintObj] constructs over its output. *)
Definition column_writer (output : W) : tabwriter.Writer :=
  tabwriter.NewWriter output 20 5 3 " " 0.

(** The writes that one [PrintObj] call issues on its column writer. *)
Definition PrintObj_writes (h : HumanReadablePrinter) (obj : Object) (output : W)
  : list string :=
  requests (PrintObj_body h obj) (column_writer output).

(** A header row: the column names tab-joined, newline-terminated. *)
Definition header_row (columnNames : list string) : string :=
  strings_Join columnNames (String TAB "") +:+ String NL "".

(** The specified condition for a header: headers are not suppressed and the
    object's type differs from the last-printed type. *)
Definition header_due (h : HumanReadablePrinter) (obj : Object) : bool :=
  negb (noHeaders h) && bool_decide (reflect_TypeOf obj ≠ lastType h).


(** Rendering every item once, in order: the writer after it, the writes
    issued, and whether every item rendered without error. *)
Fixpoint render_all {A} (f : A -> prog (option error)) (items : list A) (w : W) : W :=
  match items with
  | [] => w
  | x :: rest => render_all f rest (snd (run (f x) w))
  end.

Fixpoint writes_all {A} (f : A -> prog (option error)) (items : list A) (w : W)
  : list string :=
  match items with
  | [] => []
  | x :: rest => requests (f x) w ++ writes_all f rest (snd (run (f x) w))
  end.

Fixpoint all_rendered {A} (f : A -> prog (option error)) (items : list A) (w : W) : Prop :=
  match items with
  | [] => True
  | x :: rest => fst (run (f x) w) = None /\ all_rendered f rest (snd (run (f x) w))
  end.

(** The specification of list render functions: [print_list] renders the
    items with [print_one] once each, in order, up to and including the first
    one that fails, and returns that failure; or renders them all and returns
    nil. *)
Definition renders_each_until_error {A} (print_one : A -> prog (option error))
    (print_list : list A -> prog (option error)) (items : list A) (w : W) : Prop :=
  (all_rendered print_one items w /\
   run (print_list items) w = (None, render_all print_one items w) /\
   requests (print_list items) w = writes_all print_one items w)
  \/
  (exists before x rest err,
      items = before ++ x :: rest /\
      all_rendered print_one before w /\
      fst (run (print_one x) (render_all print_one before w)) = Some err /\
      run (print_list items) w = (Some err, render_all print_one (before ++ [x]) w) /\
      requests (print_list items) w = writes_all print_one (before ++ [x]) w).

(** A session of [PrintObj] calls on one printer and one output: what each
    call returns and what it writes on its column writer. *)
Fixpoint PrintObj_session (h : HumanReadablePrinter) (objs : list Object) (output : W)
  : list (outcome * list string) :=
  match objs with
  | [] => []
  | obj :: rest =>
      let after := PrintObj h obj output in
      (fst (fst after), PrintObj_writes h obj output)
        :: PrintObj_session (snd (fst after)) rest (snd after)
  end.

End Observations.

(** The conditions under which [GetPrinter] is specified to fail:
    an unknown format; a template format without a source; a template text
    that does not parse; a template file that cannot be read. *)
Definition GetPrinter_must_fail `{Collaborators} (format templateFile : string) : Prop :=
  (format <> "json" /\ format <> "yaml" /\ format <> "template" /\
   format <> "templatefile" /\ format <> "")
  \/ ((format = "template" \/ format = "templatefile") /\ templateFile = "")
  \/ (format = "template" /\ templateFile <> "" /\
      is_Some (snd (template_Parse "output" templateFile)))
  \/ (format = "templatefile" /\ templateFile <> "" /\
      is_Some (snd (ioutil_ReadFile templateFile)))
  \/ (format = "templatefile" /\ templateFile <> "" /\
      snd (ioutil_ReadFile templateFile) = None /\
      is_Some (snd (template_Parse "output" (fst (ioutil_ReadFile templateFile))))).




(** Every line has at most [n] cells. *)
Definition at_most (n : nat) (ls : list (list tabwriter.cell * bool)) : Prop :=
  Forall (fun l => (length (fst l) <= n)%nat) ls.

(** The shape that [Handler] is specified to require of a handler: a function
    of exactly two parameters and one result, the second parameter the
    [io.Writer] interface type and the result the [error] interface type. *)
Definition handler_shape (t : reflect_Type) (param1 : rtype) : Prop :=
  t = Some (TFunc [param1; TInterface "io.Writer"] [TInterface "error"]).

(** How often a byte occurs in a string. *)
Fixpoint count_byte (c : ascii) (s : string) : nat :=
  match s with
  | EmptyString => 0
  | String d rest => (if Ascii.eqb c d then 1 else 0) + count_byte c rest
  end.

(** Every entry of the registry is stored under the type of the first
    parameter of its function, and the function has the handler shape. *)
Definition registry_ok (h : HumanReadablePrinter) : Prop :=
  forall t entry,
    handlerMap h !! t = Some entry ->
    exists param1, t = Some param1 /\ handler_shape (Value_Type (printFunc entry)) param1.

(** The default handler of a resource: its columns and its render function
    applied to the resource; none for a value that is no resource record. *)
Definition render_of `{Collaborators} (obj : Object)
  : option (list string * prog (option error)) :=
  match obj with
  | ObjPod pod => Some (podColumns, printPod pod)
  | ObjPodList podList => Some (podColumns, printPodList podList)
  | ObjReplicationController controller =>
      Some (replicationControllerColumns, printReplicationController controller)
  | ObjReplicationControllerList list =>
      Some (replicationControllerColumns, printReplicationControllerList list)
  | ObjService svc => Some (serviceColumns, printService svc)
  | ObjServiceList list => Some (serviceColumns, printServiceList list)
  | ObjMinion minion => Some (minionColumns, printMinion minion)
  | ObjMinionList list => Some (minionColumns, printMinionList list)
  | ObjStatus status => Some (statusColumns, printStatus status)
  | ObjEvent event => Some (eventColumns, printEvent event)
  | ObjEventList list => Some (eventColumns, printEventList list)
  | ObjOther _ _ | ObjNil => None
  end.




(** Text that the column writer keeps on the line being written: no line
    break, no form feed and no escape byte. *)
Definition plain_byte (ch : ascii) : bool :=
  negb (Ascii.eqb ch NL || Ascii.eqb ch FF || Ascii.eqb ch tabwriter.Escape).

Fixpoint plain (s : string) : bool :=
  match s with
  | EmptyString => true
  | String ch rest => plain_byte ch && plain rest
  end.

(** Text that stays in one cell: plain, without a tab of either kind. *)
Fixpoint cell_text (s : string) : bool :=
  match s with
  | EmptyString => true
  | String ch rest =>
      plain_byte ch && negb (Ascii.eqb ch TAB || Ascii.eqb ch VT) && cell_text rest
  end.

Definition plain_event (event : Event.t) : bool :=
  plain (ObjectReference.Name (Event.InvolvedObject event))
  && plain (ObjectReference.Kind (Event.InvolvedObject event))
  && plain (Event.Status event)
  && plain (Event.Reason event)
  && plain (Event.Message event).

(** The events of an event resource, none for another resource. *)
Definition events_of (obj : Object) : option (list Event.t) :=
  match obj with
  | ObjEvent event => Some [event]
  | ObjEventList list => Some (EventList.Items list)
  | _ => None
  end.

(** The text of a resource whose table has a single column. *)
Definition single_cell_of (obj : Object) : option string :=
  match obj with
  | ObjMinion minion => Some (Minion.Name minion)
  | ObjStatus status => Some (Status.Status status)
  | _ => None
  end.

(** A writer that fails every [Write] with [err]. *)
Definition refuses (s : Sink) (err : error) : Prop :=
  forall history p, snd (respond s history p) = Some err.


Lemma fst_pair {A B} (a : A) (b : B) : fst (a, b) = a.
Proof. reflexivity. Qed.

Lemma snd_pair {A B} (a : A) (b : B) : snd (a, b) = b.
Proof. reflexivity. Qed.

(** ** Programs: running a sequence *)

Section run_lemmas.
Context {W : Type} `{io_Writer W}.

Lemma run_bind {A B} (p : prog A) (f : A -> prog B) (w : W) :
  run (p ≫= f) w = run (f (fst (run p w))) (snd (run p w)).
Proof.
  revert w. induction p as [a|b k IH|format a k IH]; intros w; simpl.
  - reflexivity.
  - destruct (io_Write w b) as [r w']. apply IH.
  - apply IH.
Qed.

Lemma requests_bind {A B} (p : prog A) (f : A -> prog B) (w : W) :
  requests (p ≫= f) w = requests p w ++ requests (f (fst (run p w))) (snd (run p w)).
Proof.
  revert w. induction p as [a|b k IH|format a k IH]; intros w; simpl.
  - reflexivity.
  - destruct (io_Write w b) as [r w']. simpl. f_equal. apply IH.
  - apply IH.
Qed.

Lemma logged_bind {A B} (p : prog A) (f : A -> prog B) (w : W) :
  logged (p ≫= f) w = logged p w ++ logged (f (fst (run p w))) (snd (run p w)).
Proof.
  revert w. induction p as [a|b k IH|format a k IH]; intros w; simpl.
  - reflexivity.
  - destruct (io_Write w b) as [r w']. apply IH.
  - f_equal. apply IH.
Qed.

End run_lemmas.

(** ** The column writer: the depth of [format] *)

Section format_depth.
Context `{Collaborators} {W : Type} `{io_Writer W}.

Lemma format_loop_no_column (b : tabwriter.Writer (W := W))
    (rec : list Z -> list (list tabwriter.cell * bool) -> list string)
    (widths : list Z) (ls : list (list tabwriter.cell * bool)) :
  at_most (S (length widths)) ls ->
  tabwriter.format_loop b rec widths ls [] (tabwriter.minwidth b)
  = tabwriter.writeLines b widths ls.
Proof.
  induction 1 as [|l ls Hl _ IH]; [reflexivity|].
  cbn [tabwriter.format_loop tabwriter.writeLines flat_map].
  destruct (Z.leb_spec (Z.of_nat (length (fst l)) - 1) (Z.of_nat (length widths)));
    [|lia].
  cbn [app]. f_equal. exact IH.
Qed.

Lemma format_loop_ext (b : tabwriter.Writer (W := W))
    (rec1 rec2 : list Z -> list (list tabwriter.cell * bool) -> list string)
    (n : nat) (widths : list Z) (ls block : list (list tabwriter.cell * bool))
    (colwidth : Z) :
  (forall w block', at_most n block' ->
                    rec1 (widths ++ [w]) block' = rec2 (widths ++ [w]) block') ->
  at_most n ls -> at_most n block ->
  tabwriter.format_loop b rec1 widths ls block colwidth
  = tabwriter.format_loop b rec2 widths ls block colwidth.
Proof.
  intros Hrec Hls. revert block colwidth.
  induction Hls as [|l ls Hl Hls IH]; intros block colwidth Hblock;
    cbn [tabwriter.format_loop].
  - destruct block; [reflexivity|]. apply Hrec, Hblock.
  - destruct (Z.of_nat (length (fst l)) - 1 <=? Z.of_nat (length widths)).
    + rewrite (IH [] (tabwriter.minwidth b)) by constructor.
      destruct block; [reflexivity|]. rewrite (Hrec _ _ Hblock). reflexivity.
    + apply IH. apply Forall_app. split; [exact Hblock|]. constructor; [exact Hl|constructor].
Qed.

(** With lines of at most [length widths + 1 + fuel] cells, more fuel
    changes nothing: the recursion of [format] is never cut short. *)
Lemma format_fuel_enough (b : tabwriter.Writer (W := W)) (fuel more : nat) (widths : list Z)
    (ls : list (list tabwriter.cell * bool)) :
  at_most (length widths + 1 + fuel) ls ->
  tabwriter.format (fuel + more) b widths ls = tabwriter.format fuel b widths ls.
Proof.
  revert more widths ls. induction fuel as [|fuel IH]; intros more widths ls Hls.
  - destruct more as [|more]; [reflexivity|].
    cbn [Nat.add tabwriter.format]. apply format_loop_no_column.
    eapply Forall_impl; [exact Hls|]. cbn beta. intros l Hl. lia.
  - cbn [Nat.add tabwriter.format].
    apply (format_loop_ext b _ _ (length widths + 1 + S fuel)); [|exact Hls|constructor].
    intros w block' Hblock. apply IH.
    eapply Forall_impl; [exact Hblock|]. cbn beta. intros l Hl.
    rewrite length_app. cbn [length]. lia.
Qed.

Lemma mark_last_fst {A} (l : list A) : map fst (tabwriter.mark_last l) = l.
Proof.
  induction l as [|x [|y l] IH]; [reflexivity|reflexivity|].
  change (tabwriter.mark_last (x :: y :: l)) with ((x, false) :: tabwriter.mark_last (y :: l)).
  cbn [map fst]. f_equal. exact IH.
Qed.

(** The depth that [Flush] gives [format] is enough for the buffered lines. *)
Lemma Flush_depth_enough (b : tabwriter.Writer (W := W)) (lines : list (list tabwriter.cell))
    (more : nat) :
  let depth := S (list_max (map (@length tabwriter.cell) lines)) in
  tabwriter.format (depth + more) b [] (tabwriter.mark_last lines)
  = tabwriter.format depth b [] (tabwriter.mark_last lines).
Proof.
  intros depth. apply format_fuel_enough. unfold at_most.
  apply List.Forall_forall. intros l Hl.
  assert (Hin : In (fst l) lines).
  { rewrite <- (mark_last_fst lines). apply in_map, Hl. }
  pose proof (proj1 (list_max_le (map (@length tabwriter.cell) lines)
                       (list_max (map (@length tabwriter.cell) lines))) (Nat.le_refl _))
    as Hmax.
  rewrite List.Forall_forall in Hmax.
  specialize (Hmax (length (fst l)) (in_map _ _ _ Hin)).
  subst depth. cbn [length]. lia.
Qed.

End format_depth.

(** ** List render functions *)

Section range_print_lemmas.
Context `{Collaborators} {W : Type} `{io_Writer W}.

Lemma render_all_snoc {A} (f : A -> prog (option error)) (items : list A) (x : A) (w : W) :
  render_all f (items ++ [x]) w = snd (run (f x) (render_all f items w)).
Proof.
  revert w. induction items as [|y items IH]; intros w; simpl; [reflexivity|apply IH].
Qed.

Lemma range_print_renders {A} (f : A -> prog (option error)) (items : list A) (w : W) :
  renders_each_until_error f (range_print f) items w.
Proof.
  revert w. induction items as [|x items IH]; intros w.
  - left. repeat split.
  - unfold renders_each_until_error. simpl range_print.
    rewrite run_bind, requests_bind.
    destruct (fst (run (f x) w)) as [err|] eqn:Hx.
    + right. exists [], x, items, err. simpl.
      rewrite app_nil_r. repeat split; assumption.
    + destruct (IH (snd (run (f x) w))) as [(Hall & Hrun & Hreq)|Hstop].
      * left. simpl. rewrite Hrun, Hreq. repeat split; assumption.
      * destruct Hstop as (before & y & rest & err & -> & Hall & Hy & Hrun & Hreq).
        right. exists (x :: before), y, rest, err. simpl.
        rewrite Hrun, Hreq. repeat split; assumption.
Qed.

End range_print_lemmas.

(** Closes a goal whose hypothesis lists failure conditions none of which
    holds. *)
Ltac no_failure_expected :=
  intros Hfail;
  repeat match goal with
         | Hd : _ \/ _ |- _ => destruct Hd
         | Hc : _ /\ _ |- _ => destruct Hc
         | Hs : is_Some _ |- _ => destruct Hs
         end;
  simpl in *; congruence.

(** ** Theorems *)

Section Properties.
Context {C : Collaborators}.

(** C7. Every list-form default render function renders the items with its
    singular render function once each, in order; it returns the first error
    and renders nothing after it, and returns nil when every item rendered. *)
Theorem list_render_functions_delegate {W : Type} `{io_Writer W} (w : W) :
  (forall items, renders_each_until_error printPod
                   (fun l => printPodList (PodList.mk l)) items w) /\
  (forall items, renders_each_until_error printReplicationController
                   (fun l => printReplicationControllerList
                               (ReplicationControllerList.mk l)) items w) /\
  (forall items, renders_each_until_error printService
                   (fun l => printServiceList (ServiceList.mk l)) items w) /\
  (forall items, renders_each_until_error printMinion
                   (fun l => printMinionList (MinionList.mk l)) items w) /\
  (forall items, renders_each_until_error printEvent
                   (fun l => printEventList (EventList.mk l)) items w).
Proof.
  repeat split; intros items; apply range_print_renders.
Qed.

(** C6. [JSONPrinter.PrintObj] returns the error of the version lookup or of
    the encoder unchanged, with nothing written; otherwise it writes, in one
    [Write], the encoder's bytes as [json.Indent] with the four-space indent
    leaves them, followed by a newline. *)
Theorem JSONPrinter_PrintObj_writes_indented {W : Type} `{io_Writer W}
    (j : JSONPrinter) (obj : Object) (w : W) :
  let vi := latest_InterfacesFor (JSONPrinter_version j) in
  let data := Codec_Encode (fst vi) obj in
  let text := fst (json_Indent "" (fst data) "" "    ") +:+ String NL "" in
  match snd vi, snd data with
  | Some err, _ | None, Some err =>
      run (JSONPrinter_PrintObj j obj) w = (Some err, w) /\
      requests (JSONPrinter_PrintObj j obj) w = []
  | None, None =>
      run (JSONPrinter_PrintObj j obj) w = (snd (fst (io_Write w text)), snd (io_Write w text)) /\
      requests (JSONPrinter_PrintObj j obj) w = [text]
  end.
Proof.
  intros vi data text. subst vi data text. unfold JSONPrinter_PrintObj.
  destruct (latest_InterfacesFor (JSONPrinter_version j)) as [vi [err|]]; simpl.
  - split; reflexivity.
  - destruct (Codec_Encode vi obj) as [data [err|]]; simpl.
    + split; reflexivity.
    + destruct (json_Indent "" data "" "    ") as [dst ierr]; simpl.
      destruct (io_Write w (dst +:+ String NL "")) as [[n err] w']; simpl.
      split; reflexivity.
Qed.

(** C8. When the version lookup and the encoding succeed, whatever error the
    re-indentation step reports, [JSONPrinter.PrintObj] writes the buffer
    (what the indentation left in it, and the newline) and returns the error
    of that [Write] alone. *)
Theorem JSONPrinter_indent_failure_unobservable {W : Type} `{io_Writer W}
    (j : JSONPrinter) (obj : Object) (w : W)
    (indent_err : string -> string -> string -> string -> option error) :
  let vi := latest_InterfacesFor (JSONPrinter_version j) in
  let data := Codec_Encode (fst vi) obj in
  let text := fst (json_Indent "" (fst data) "" "    ") +:+ String NL "" in
  let PrintObj_j := JSONPrinter_PrintObj (H := with_Indent_error C indent_err) j obj in
  snd vi = None ->
  snd data = None ->
  run PrintObj_j w = (snd (fst (io_Write w text)), snd (io_Write w text)) /\
  requests PrintObj_j w = [text].
Proof.
  intros vi data text PrintObj_j Hvi Hdata.
  subst vi data text PrintObj_j. unfold JSONPrinter_PrintObj. simpl.
  destruct (latest_InterfacesFor (JSONPrinter_version j)) as [vi err].
  simpl in Hvi, Hdata |- *. subst err.
  destruct (Codec_Encode vi obj) as [data err]. simpl in Hdata |- *. subst err.
  destruct (io_Write w (fst (json_Indent "" data "" "    ") +:+ String NL ""))
    as [[n err] w'] eqn:Hw; simpl.
  rewrite Hw. split; reflexivity.
Qed.



Lemma len_is_zero (s : string) : (len s =? 0) = true <-> s = "".
Proof.
  unfold len. destruct s; simpl; split; intros Hs; try reflexivity; discriminate.
Qed.

(** C4. [GetPrinter] returns an error exactly when the format is not one of
    the five known ones (the error then names the format), a template format
    comes without a source, the template text does not parse, or the
    template file cannot be read; for the empty format it returns the
    fallback printer itself and no error. *)
Theorem GetPrinter_fails_exactly_when (version format templateFile : string)
    (defaultPrinter : ResourcePrinter) :
  (is_Some (snd (GetPrinter version format templateFile defaultPrinter))
   <-> GetPrinter_must_fail format templateFile) /\
  ((format <> "json" /\ format <> "yaml" /\ format <> "template" /\
    format <> "templatefile" /\ format <> "") ->
   GetPrinter version format templateFile defaultPrinter =
     (nil_ResourcePrinter,
      Some (fmt_Errorf "output format %q not recognized" [VString format]))) /\
  GetPrinter version "" templateFile defaultPrinter = (defaultPrinter, None).
Proof.
  split; [|split; [|reflexivity]].
  - unfold GetPrinter, GetPrinter_must_fail, NewTemplatePrinter.
    destruct (String.eqb_spec format "json") as [->|Hj].
    { simpl. split; [intros []; discriminate|]. no_failure_expected. }
    destruct (String.eqb_spec format "yaml") as [->|Hy].
    { simpl. split; [intros []; discriminate|]. no_failure_expected. }
    destruct (String.eqb_spec format "template") as [->|Ht].
    { destruct (len templateFile =? 0) eqn:Hlen.
      - apply len_is_zero in Hlen. subst. simpl. split; [|eauto]. intros _.
        right; left. split; [left|]; reflexivity.
      - assert (templateFile <> "") as Hne
          by (intros ->; discriminate Hlen).
        destruct (template_Parse "output" templateFile) as [t [err|]] eqn:Hp; simpl.
        + split; [|eauto]. intros _. right; right; left. eauto.
        + split; [intros []; discriminate|]. no_failure_expected. }
    destruct (String.eqb_spec format "templatefile") as [->|Htf].
    { destruct (len templateFile =? 0) eqn:Hlen.
      - apply len_is_zero in Hlen. subst. simpl. split; [|eauto]. intros _.
        right; left. split; [right|]; reflexivity.
      - assert (templateFile <> "") as Hne
          by (intros ->; discriminate Hlen).
        destruct (ioutil_ReadFile templateFile) as [data [rerr|]] eqn:Hr; simpl.
        + split; [|eauto]. intros _. right; right; right; left. eauto.
        + destruct (template_Parse "output" data) as [t [err|]] eqn:Hp; simpl.
          * split; [|eauto]. intros _. right; right; right; right. eauto 10.
          * split; [intros []; discriminate|]. no_failure_expected. }
    destruct (String.eqb_spec format "") as [->|He].
    { simpl. split; [intros []; discriminate|]. no_failure_expected. }
    simpl. split; [|eauto]. intros _. left. auto.
  - intros (Hj & Hy & Ht & Htf & He). unfold GetPrinter.
    destruct (String.eqb_spec format "json"); [contradiction|].
    destruct (String.eqb_spec format "yaml"); [contradiction|].
    destruct (String.eqb_spec format "template"); [contradiction|].
    destruct (String.eqb_spec format "templatefile"); [contradiction|].
    destruct (String.eqb_spec format ""); [contradiction|].
    reflexivity.
Qed.

Lemma validatePrintHandlerFunc_accepts (printFunc : reflect_Value) :
  validatePrintHandlerFunc printFunc = None <->
  exists param1, handler_shape (Value_Type printFunc) param1.
Proof.
  unfold validatePrintHandlerFunc, handler_shape, Value_Kind.
  destruct (Value_Type printFunc) as [[n|n|n|e|ins outs]|]; simpl;
    try (split; [discriminate|intros [? ?]; discriminate]).
  destruct ins as [|a [|b [|c ins]]]; simpl;
    try (split; [discriminate|intros [? ?]; discriminate]).
  - destruct outs as [|r [|r' outs]]; simpl;
      try (split; [discriminate|intros [? ?]; discriminate]).
    + unfold io_Writer_type, error_type. simpl.
      repeat case_bool_decide; simpl;
        (split; [try discriminate; intros _|try (intros [? ?]; congruence)]).
      exists a. congruence.
    + case_bool_decide; simpl; [|exfalso; lia].
      split; [discriminate|intros [? ?]; discriminate].
  - case_bool_decide; simpl; [|exfalso; lia].
    split; [discriminate|intros [? ?]; discriminate].
Qed.

(** C2. [Handler] stores the entry under the type of the first parameter,
    over any earlier entry and leaving every other entry as it was, when the
    value is a function of exactly two parameters and one result whose second
    parameter is [io.Writer] and whose result is [error]; for every other
    value it returns an error and changes nothing of the printer. *)
Theorem Handler_registers_exactly_handler_shape (h : HumanReadablePrinter)
    (columns : list string) (printFunc : reflect_Value) :
  (forall param1, handler_shape (Value_Type printFunc) param1 ->
     Handler h columns printFunc =
       (None,
        mkHumanReadablePrinter
          (<[Some param1 := mkHandlerEntry columns printFunc]> (handlerMap h))
          (noHeaders h) (lastType h),
        []) /\
     forall t, handlerMap (snd (fst (Handler h columns printFunc))) !! t =
               if decide (Some param1 = t)
               then Some (mkHandlerEntry columns printFunc)
               else handlerMap h !! t) /\
  ((forall param1, ~ handler_shape (Value_Type printFunc) param1) ->
     exists err,
       Handler h columns printFunc =
         (Some err, h, [("Unable to add print handler: %v", [VError err])])).
Proof.
  split.
  - intros param1 Hshape.
    assert (Hv : validatePrintHandlerFunc printFunc = None)
      by (apply validatePrintHandlerFunc_accepts; eauto).
    unfold Handler. rewrite Hv. unfold handler_shape in Hshape. rewrite Hshape. simpl.
    split; [reflexivity|]. intros t. apply lookup_insert.
  - intros Hno. unfold Handler.
    destruct (validatePrintHandlerFunc printFunc) as [err|] eqn:Hv.
    + exists err. reflexivity.
    + apply validatePrintHandlerFunc_accepts in Hv as [param1 Hshape].
      destruct (Hno param1 Hshape).
Qed.

(** *** [PrintObj] *)

Lemma header_row_Sprintf (columnNames : list string) :
  fmt_Sprintf (lit "%s\n") [VString (strings_Join columnNames (lit "\t"))]
  = header_row columnNames.
Proof. reflexivity. Qed.

Lemma requests_printHeader {W : Type} `{io_Writer W} (columnNames : list string) (w : W) :
  requests (printHeader columnNames) w = [header_row columnNames].
Proof.
  unfold printHeader, fmt_Fprintf. rewrite header_row_Sprintf. simpl.
  destruct (io_Write w (header_row columnNames)) as [[n [err|]] w']; reflexivity.
Qed.

(** Flushing a column writer that received nothing hands the output one
    empty [Write]. *)
Lemma Flush_column_writer {W : Type} `{io_Writer W} (output : W) :
  tabwriter.output (snd (tabwriter.Flush (column_writer output)))
  = snd (io_Write output "").
Proof.
  unfold column_writer, tabwriter.Flush. simpl.
  destruct (io_Write output "") as [[n [err|]] out']; simpl; [reflexivity|].
  destruct (n =? len ""); reflexivity.
Qed.

Lemma PrintObj_unknown {W : Type} `{io_Writer W} (h : HumanReadablePrinter)
    (obj : Object) (output : W) :
  handlerMap h !! reflect_TypeOf obj = None ->
  PrintObj h obj output =
    (Returned (Some (fmt_Errorf "error: unknown type %#v" [VObject obj])), h,
     snd (io_Write output "")) /\
  PrintObj_writes h obj output = [].
Proof.
  intros Hnone. unfold PrintObj, PrintObj_writes, PrintObj_body. rewrite Hnone. simpl.
  fold (column_writer output).
  pose proof (Flush_column_writer output) as Hflush.
  destruct (tabwriter.Flush (column_writer output)) as [err w]. simpl in Hflush.
  rewrite Hflush. split; reflexivity.
Qed.

Lemma PrintObj_registered {W : Type} `{io_Writer W} (h : HumanReadablePrinter)
    (obj : Object) (output : W) (handler : handlerEntry) :
  handlerMap h !! reflect_TypeOf obj = Some handler ->
  let w1 := if header_due h obj
            then snd (run (printHeader (columns handler)) (column_writer output))
            else column_writer output in
  let called := run (Value_Call (printFunc handler) obj) w1 in
  PrintObj h obj output =
    (fst called,
     (if header_due h obj
      then mkHumanReadablePrinter (handlerMap h) (noHeaders h) (reflect_TypeOf obj)
      else h),
     tabwriter.output (snd (tabwriter.Flush (snd called)))) /\
  PrintObj_writes h obj output =
    (if header_due h obj then [header_row (columns handler)] else [])
    ++ requests (Value_Call (printFunc handler) obj) w1.
Proof.
  intros Hsome w1 called. subst w1 called.
  unfold PrintObj, PrintObj_writes, PrintObj_body. rewrite Hsome.
  fold (column_writer output). fold (header_due h obj).
  rewrite !run_bind, !requests_bind.
  destruct (header_due h obj).
  - rewrite !run_bind, !requests_bind, requests_printHeader. cbn [run requests fst snd].
    set (w1 := snd (run (printHeader (columns handler)) (column_writer output))).
    destruct (run (Value_Call (printFunc handler) obj) w1) as [result w2].
    cbn [fst snd].
    destruct (tabwriter.Flush w2) as [err w3]. cbn [fst snd].
    rewrite !app_nil_r. split; reflexivity.
  - cbn [run requests fst snd].
    destruct (run (Value_Call (printFunc handler) obj) (column_writer output))
      as [result w2].
    cbn [fst snd app].
    destruct (tabwriter.Flush w2) as [err w3]. cbn [fst snd].
    rewrite !app_nil_r. split; reflexivity.
Qed.




(** X7. With headers suppressed, no call writes a header and the
    last-printed type never changes. *)
Lemma PrintObj_without_headers {W : Type} `{io_Writer W}
    (h : HumanReadablePrinter) (obj : Object) (output : W) :
  noHeaders h = true ->
  header_due h obj = false /\
  snd (fst (PrintObj h obj output)) = h.
Proof.
  intros Hsuppressed.
  assert (Hdue : header_due h obj = false)
    by (unfold header_due; rewrite Hsuppressed; reflexivity).
  split; [exact Hdue|].
  destruct (handlerMap h !! reflect_TypeOf obj) as [handler|] eqn:Hhandler.
  - destruct (PrintObj_registered h obj output handler Hhandler) as [Hcall _].
    rewrite Hcall, !fst_pair, !snd_pair, Hdue. reflexivity.
  - destruct (PrintObj_unknown h obj output Hhandler) as [Hcall _].
    rewrite Hcall. reflexivity.
Qed.

Lemma Sink_bytes_empty_write (s : Sink) :
  Sink_bytes (snd (io_Write s "")) = Sink_bytes s.
Proof.
  unfold Sink_bytes, io_Write, Sink_Writer. simpl.
  induction (received s) as [|x l IH]; simpl; [reflexivity|]. rewrite IH. reflexivity.
Qed.

(** C3. For an object whose type has no entry in the registry, [PrintObj]
    returns the unknown-type error that names the object, and the output
    receives no byte: no header row and no data row is written on the column
    writer, and the deferred [Flush] hands the output one empty [Write]. *)
Theorem PrintObj_unknown_type_writes_nothing (h : HumanReadablePrinter)
    (obj : Object) (output : Sink) :
  handlerMap h !! reflect_TypeOf obj = None ->
  fst (fst (PrintObj h obj output)) =
    Returned (Some (fmt_Errorf "error: unknown type %#v" [VObject obj])) /\
  PrintObj_writes h obj output = [] /\
  received (snd (PrintObj h obj output)) = received output ++ [""] /\
  Sink_bytes (snd (PrintObj h obj output)) = Sink_bytes output.
Proof.
  intros Hnone. destruct (PrintObj_unknown h obj output Hnone) as [Hcall Hwrites].
  rewrite Hcall. cbn [fst snd]. repeat split; try assumption.
  apply Sink_bytes_empty_write.
Qed.

(** C9. A [PrintObj] call that fails for want of a handler leaves the
    printer, its last-printed type and its registry, as it was; every later
    call, and every later session, writes its headers as it would have
    without the failed call. *)
Theorem PrintObj_unknown_type_keeps_printer {W : Type} `{io_Writer W}
    (h : HumanReadablePrinter) (obj : Object) (output : W) :
  handlerMap h !! reflect_TypeOf obj = None ->
  let h' := snd (fst (PrintObj h obj output)) in
  h' = h /\
  lastType h' = lastType h /\
  handlerMap h' = handlerMap h /\
  (forall later, header_due h' later = header_due h later) /\
  (forall later output', PrintObj_session h' later output' = PrintObj_session h later output').
Proof.
  intros Hnone h'. subst h'.
  destruct (PrintObj_unknown h obj output Hnone) as [Hcall _].
  rewrite Hcall. cbn [fst snd]. repeat split.
Qed.

(** *** The column writer over a writer that accepts everything *)









(** *** The service scenario *)

Lemma run_Returned {W : Type} `{io_Writer W} (p : prog (option error)) (w : W) :
  run (err ← p; Ret (Returned err)) w = (Returned (fst (run p w)), snd (run p w)) /\
  requests (err ← p; Ret (Returned err)) w = requests p w.
Proof.
  rewrite run_bind, requests_bind. cbn [run requests]. rewrite app_nil_r.
  split; reflexivity.
Qed.







End Properties.

(** ** Further properties of the printers *)

(** *** The registry *)

Lemma count_byte_app (c : ascii) (s1 s2 : string) :
  count_byte c (s1 +:+ s2) = (count_byte c s1 + count_byte c s2)%nat.
Proof. induction s1 as [|d s1 IH]; simpl; [reflexivity|]. rewrite IH. lia. Qed.

Section Registry.
Context {C : Collaborators}.

(** X1. [podHostString] gives the text for an unassigned pod exactly when
    the host and the IP are both empty; in every other case, and in no
    other, the text has a slash. *)
Theorem podHostString_unassigned_iff_both_empty (host ip : string) :
  (podHostString host ip = "<unassigned>" <-> host = "" /\ ip = "") /\
  (count_byte "/" (podHostString host ip) = 0%nat <-> host = "" /\ ip = "").
Proof.
  assert (Hslash : forall h i, count_byte "/" (h +:+ "/" +:+ i) <> 0%nat).
  { intros h i. rewrite !count_byte_app. simpl. lia. }
  unfold podHostString.
  destruct (String.eqb_spec host "") as [->|Hh].
  - destruct (String.eqb_spec ip "") as [->|Hi]; simpl.
    + repeat split; reflexivity.
    + split; (split; [intros Heq|intros [_ ?]; contradiction]).
      * apply (f_equal (count_byte "/")) in Heq.
        pose proof (Hslash "" ip) as Hs. simpl in Heq, Hs. lia.
      * pose proof (Hslash "" ip) as Hs. simpl in Hs. simpl in Heq. lia.
  - simpl. split; (split; [intros Heq|intros [? _]; contradiction]).
    + apply (f_equal (count_byte "/")) in Heq. pose proof (Hslash host ip). simpl in Heq. lia.
    + pose proof (Hslash host ip). lia.
Qed.

Lemma PrintObj_state {W : Type} `{io_Writer W} (h : HumanReadablePrinter)
    (obj : Object) (output : W) :
  snd (fst (PrintObj h obj output)) =
    match handlerMap h !! reflect_TypeOf obj with
    | Some _ =>
        if header_due h obj
        then mkHumanReadablePrinter (handlerMap h) (noHeaders h) (reflect_TypeOf obj)
        else h
    | None => h
    end.
Proof.
  destruct (handlerMap h !! reflect_TypeOf obj) as [handler|] eqn:Hhandler.
  - destruct (PrintObj_registered h obj output handler Hhandler) as [Hcall _].
    rewrite Hcall, !fst_pair, !snd_pair. reflexivity.
  - destruct (PrintObj_unknown h obj output Hhandler) as [Hcall _].
    rewrite Hcall. reflexivity.
Qed.

(** X8. [PrintObj] leaves the registry and the header switch of the printer
    as they were; the last-printed type is as before or the type of the
    object. *)
Theorem PrintObj_changes_only_last_type {W : Type} `{io_Writer W}
    (h : HumanReadablePrinter) (obj : Object) (output : W) :
  let h' := snd (fst (PrintObj h obj output)) in
  handlerMap h' = handlerMap h /\
  noHeaders h' = noHeaders h /\
  (lastType h' = lastType h \/ lastType h' = reflect_TypeOf obj).
Proof.
  intros h'. subst h'. rewrite PrintObj_state.
  destruct (handlerMap h !! reflect_TypeOf obj); [destruct (header_due h obj)|];
    cbn [handlerMap noHeaders lastType]; auto.
Qed.

Lemma Handler_state (h : HumanReadablePrinter) (columns : list string)
    (printFunc : reflect_Value) :
  (exists param1, handler_shape (Value_Type printFunc) param1 /\
     snd (fst (Handler h columns printFunc)) =
       mkHumanReadablePrinter
         (<[Some param1 := mkHandlerEntry columns printFunc]> (handlerMap h))
         (noHeaders h) (lastType h)) \/
  ((forall param1, ~ handler_shape (Value_Type printFunc) param1) /\
   snd (fst (Handler h columns printFunc)) = h).
Proof.
  unfold Handler.
  destruct (validatePrintHandlerFunc printFunc) as [err|] eqn:Hv.
  - right. split; [|reflexivity]. intros param1 Hshape.
    assert (validatePrintHandlerFunc printFunc = None) as Hnone
      by (apply validatePrintHandlerFunc_accepts; eauto).
    congruence.
  - left. apply validatePrintHandlerFunc_accepts in Hv as [param1 Hshape].
    exists param1. split; [exact Hshape|].
    unfold handler_shape in Hshape. rewrite Hshape. reflexivity.
Qed.

Lemma Handler_accepted (h : HumanReadablePrinter) (columns : list string)
    (printFunc : reflect_Value) (param1 : rtype) :
  handler_shape (Value_Type printFunc) param1 ->
  snd (fst (Handler h columns printFunc)) =
    mkHumanReadablePrinter
      (<[Some param1 := mkHandlerEntry columns printFunc]> (handlerMap h))
      (noHeaders h) (lastType h).
Proof.
  intros Hshape. unfold Handler.
  assert (Hv : validatePrintHandlerFunc printFunc = None)
    by (apply validatePrintHandlerFunc_accepts; eauto).
  rewrite Hv. unfold handler_shape in Hshape. rewrite Hshape. reflexivity.
Qed.

Lemma Handler_keeps_registry_ok (h : HumanReadablePrinter) (columns : list string)
    (printFunc : reflect_Value) :
  registry_ok h -> registry_ok (snd (fst (Handler h columns printFunc))).
Proof.
  intros Hok.
  destruct (Handler_state h columns printFunc) as [(param1 & Hshape & ->)|[_ ->]];
    [|exact Hok].
  intros t entry. cbn [handlerMap]. rewrite lookup_insert.
  case_decide as Ht.
  - intros [= <-]. exists param1. split; [symmetry; exact Ht|exact Hshape].
  - apply Hok.
Qed.

Lemma addDefaultHandlers_registry_ok (h : HumanReadablePrinter) :
  registry_ok h -> registry_ok (fst (addDefaultHandlers h)).
Proof.
  unfold addDefaultHandlers.
  generalize (@nil (string * list value)).
  revert h. induction defaultHandlers as [|[cols f] rest IH]; intros h log Hok.
  - exact Hok.
  - cbn [fold_left fst snd].
    pose proof (Handler_keeps_registry_ok h cols f Hok) as Hok'.
    destruct (Handler h cols f) as [[err h'] log']. cbn [fst snd] in Hok' |- *.
    apply IH, Hok'.
Qed.

(** X2. Every entry of the registry is stored under the type of the first
    parameter of its function, and the function has the handler shape: this
    holds of a new printer and is kept by [Handler] and by [PrintObj]; so a
    nil object, whose type is nil, has no handler on such a printer. *)
Theorem registry_entries_keyed_by_first_parameter :
  (forall noHeaders', registry_ok (fst (NewHumanReadablePrinter noHeaders'))) /\
  (forall h columns printFunc,
      registry_ok h -> registry_ok (snd (fst (Handler h columns printFunc)))) /\
  (forall (W : Type) (ioW : io_Writer W) h obj (output : W),
      registry_ok h -> registry_ok (snd (fst (PrintObj h obj output)))) /\
  (forall (W : Type) (ioW : io_Writer W) h (output : W),
      registry_ok h ->
      fst (fst (PrintObj h ObjNil output)) =
        Returned (Some (fmt_Errorf "error: unknown type %#v" [VObject ObjNil]))).
Proof.
  split; [|split; [|split]].
  - intros noHeaders'. apply addDefaultHandlers_registry_ok.
    intros t entry Hlookup. cbn [handlerMap] in Hlookup.
    rewrite lookup_empty in Hlookup. discriminate.
  - apply Handler_keeps_registry_ok.
  - intros W ioW h obj output Hok t entry.
    rewrite PrintObj_state.
    destruct (handlerMap h !! reflect_TypeOf obj); [destruct (header_due h obj)|];
      cbn [handlerMap]; apply Hok.
  - intros W ioW h output Hok.
    assert (Hnone : handlerMap h !! reflect_TypeOf ObjNil = None).
    { destruct (handlerMap h !! reflect_TypeOf ObjNil) as [entry|] eqn:Hl; [|reflexivity].
      destruct (Hok _ _ Hl) as (param1 & Hkey & _). discriminate. }
    destruct (PrintObj_unknown h ObjNil output Hnone) as [Hcall _].
    rewrite Hcall. reflexivity.
Qed.


(** X3. Of two accepted registrations for the same type the later one
    stands alone, as if the earlier had not been made; two accepted
    registrations for different types give the same printer in either
    order. *)
Theorem Handler_last_registration_wins (h : HumanReadablePrinter)
    (columns1 columns2 : list string) (printFunc1 printFunc2 : reflect_Value)
    (param1 param2 : rtype) :
  handler_shape (Value_Type printFunc1) param1 ->
  handler_shape (Value_Type printFunc2) param2 ->
  let first_then_second :=
    snd (fst (Handler (snd (fst (Handler h columns1 printFunc1))) columns2 printFunc2)) in
  let second_then_first :=
    snd (fst (Handler (snd (fst (Handler h columns2 printFunc2))) columns1 printFunc1)) in
  (param1 = param2 ->
   first_then_second = snd (fst (Handler h columns2 printFunc2))) /\
  (param1 <> param2 -> first_then_second = second_then_first).
Proof.
  intros Hshape1 Hshape2 first_then_second second_then_first.
  subst first_then_second second_then_first.
  rewrite !(Handler_accepted _ _ printFunc1 param1 Hshape1),
          !(Handler_accepted _ _ printFunc2 param2 Hshape2).
  cbn [handlerMap noHeaders lastType].
  split.
  - intros ->. rewrite insert_insert_eq. reflexivity.
  - intros Hne. rewrite insert_insert_ne by congruence. reflexivity.
Qed.

(** X4. After [Handler] has accepted a function for a type, [PrintObj] on an
    object of that type returns what the call of that function returns, and
    writes the header of the columns given with it when a header is due, then
    what the function writes. *)
Theorem Handler_then_PrintObj_calls_the_handler {W : Type} `{io_Writer W}
    (h : HumanReadablePrinter) (columns : list string) (printFunc : reflect_Value)
    (param1 : rtype) (obj : Object) (output : W) :
  handler_shape (Value_Type printFunc) param1 ->
  reflect_TypeOf obj = Some param1 ->
  let h1 := snd (fst (Handler h columns printFunc)) in
  let w1 := if header_due h obj
            then snd (run (printHeader columns) (column_writer output))
            else column_writer output in
  fst (fst (PrintObj h1 obj output)) = fst (run (Value_Call printFunc obj) w1) /\
  PrintObj_writes h1 obj output =
    (if header_due h obj then [header_row columns] else [])
    ++ requests (Value_Call printFunc obj) w1.
Proof.
  intros Hshape Htype h1 w1. subst h1 w1.
  rewrite (Handler_accepted h columns printFunc param1 Hshape).
  set (h1 := mkHumanReadablePrinter _ _ _).
  assert (Hlookup : handlerMap h1 !! reflect_TypeOf obj
                    = Some (mkHandlerEntry columns printFunc))
    by (rewrite Htype; apply lookup_insert_eq).
  destruct (PrintObj_registered h1 obj output _ Hlookup) as [Hcall Hwrites].
  change (header_due h1 obj) with (header_due h obj) in Hcall, Hwrites.
  rewrite Hcall, Hwrites, !fst_pair. split; reflexivity.
Qed.

End Registry.

(** *** What [PrintObj] and [tabbedString] leave in the output *)




Lemma string_app_assoc (a b c : string) : (a +:+ b) +:+ c = a +:+ (b +:+ c).
Proof.
  induction a as [|x a IH]; [reflexivity|].
  change (String x ((a +:+ b) +:+ c) = String x (a +:+ (b +:+ c))).
  rewrite IH. reflexivity.
Qed.


Section Appending.
Context {C : Collaborators}.







End Appending.

(** *** Rows and columns *)

Section Rows.
Context {C : Collaborators}.

Lemma header_row_one (x : string) : header_row [x] = x +:+ String NL "".
Proof. reflexivity. Qed.

Lemma header_row_cons (x y : string) (rest : list string) :
  header_row (x :: y :: rest) = x +:+ String TAB (header_row (y :: rest)).
Proof.
  unfold header_row.
  change (strings_Join (x :: y :: rest) (String TAB ""))
    with (x +:+ String TAB "" +:+ strings_Join (y :: rest) (String TAB "")).
  rewrite !string_app_assoc. reflexivity.
Qed.

Lemma default_entry (noHeaders' : bool) (obj : Object) (cols : list string)
    (p : prog (option error)) :
  render_of obj = Some (cols, p) ->
  exists func,
    handlerMap (fst (NewHumanReadablePrinter noHeaders')) !! reflect_TypeOf obj
      = Some (mkHandlerEntry cols func) /\
    Value_Call func obj = (err ← p; Ret (Returned err)).
Proof.
  destruct obj; intros [= <- <-]; eexists; (split; [vm_compute; reflexivity|reflexivity]).
Qed.







End Rows.

(** *** Write errors *)

Lemma plain_app (a b : string) : plain (a +:+ b) = plain a && plain b.
Proof.
  induction a as [|ch a IH]; [reflexivity|].
  change (plain_byte ch && plain (a +:+ b) = plain_byte ch && plain a && plain b).
  rewrite IH. destruct (plain_byte ch); reflexivity.
Qed.

Lemma plain_Join (fields : list string) :
  forallb plain fields = true -> plain (strings_Join fields (String TAB "")) = true.
Proof.
  induction fields as [|x [|y fields] IH]; [reflexivity| |].
  - cbn [forallb strings_Join]. rewrite andb_true_r. auto.
  - intros Hall. change (forallb plain (x :: y :: fields))
      with (plain x && forallb plain (y :: fields)) in Hall.
    apply andb_prop in Hall as [Hx Hrest].
    change (strings_Join (x :: y :: fields) (String TAB ""))
      with (x +:+ String TAB "" +:+ strings_Join (y :: fields) (String TAB "")).
    rewrite !plain_app, Hx, (IH Hrest). reflexivity.
Qed.

Lemma count_TAB_Join (fields : list string) :
  (length fields - 1 <= count_byte TAB (strings_Join fields (String TAB "")))%nat.
Proof.
  induction fields as [|x [|y fields] IH]; [cbn; lia|cbn [length]; lia|].
  change (strings_Join (x :: y :: fields) (String TAB ""))
    with (x +:+ String TAB "" +:+ strings_Join (y :: fields) (String TAB "")).
  rewrite !count_byte_app. cbn [length] in IH |- *.
  change (count_byte TAB (String TAB "")) with 1%nat. lia.
Qed.

Section Buffered.
Context {C : Collaborators} {W : Type} `{io_Writer W}.

(** Plain text is buffered: no flush, no write on the output. *)
Lemma Write_from_plain (s rest : string) (b : tabwriter.Writer (W := W)) (n : Z) :
  plain s = true -> tabwriter.endChar b = None ->
  exists b' n',
    tabwriter.Write_from b (s +:+ rest) n = tabwriter.Write_from b' rest n' /\
    tabwriter.endChar b' = None /\
    (length (tabwriter.line b) + count_byte TAB s <= length (tabwriter.line b'))%nat.
Proof.
  revert b n. induction s as [|ch s IH]; intros b n Hplain Hend.
  - exists b, n. repeat split; [exact Hend|cbn [count_byte]; lia].
  - change (plain (String ch s)) with (plain_byte ch && plain s) in Hplain.
    apply andb_prop in Hplain as [Hch Hs].
    unfold plain_byte in Hch. apply negb_true_iff in Hch.
    apply orb_false_elim in Hch as [Hch Hesc]. apply orb_false_elim in Hch as [Hnl Hff].
    change (String ch s +:+ rest) with (String ch (s +:+ rest)).
    cbn [tabwriter.Write_from]. rewrite Hend, Hnl, Hff, Hesc.
    cbn [count_byte].
    destruct (Ascii.eqb_spec ch TAB) as [->|Htab].
    + cbn [orb tabwriter.terminateCell].
      match goal with |- context [tabwriter.Write_from ?b1 _ ?n1] =>
        destruct (IH b1 n1 Hs Hend) as (b' & n' & Heq & Hend' & Hlen) end.
      exists b', n'. repeat split; [exact Heq|exact Hend'|].
      cbn [tabwriter.line tabwriter.with_cells tabwriter.updateWidth] in Hlen.
      rewrite length_app in Hlen. cbn [length] in Hlen.
      rewrite Ascii.eqb_refl. lia.
    + assert (Hne : Ascii.eqb TAB ch = false)
        by (apply Ascii.eqb_neq; intros Heq; apply Htab; symmetry; exact Heq).
      rewrite Hne.
      destruct (Ascii.eqb ch VT); cbn [orb tabwriter.terminateCell].
      * match goal with |- context [tabwriter.Write_from ?b1 _ ?n1] =>
          destruct (IH b1 n1 Hs Hend) as (b' & n' & Heq & Hend' & Hlen) end.
        exists b', n'. repeat split; [exact Heq|exact Hend'|].
        cbn [tabwriter.line tabwriter.with_cells tabwriter.updateWidth] in Hlen.
        rewrite length_app in Hlen. cbn [length] in Hlen. lia.
      * match goal with |- context [tabwriter.Write_from ?b1 _ ?n1] =>
          destruct (IH b1 n1 Hs Hend) as (b' & n' & Heq & Hend' & Hlen) end.
        exists b', n'. repeat split; [exact Heq|exact Hend'|].
        cbn [tabwriter.line tabwriter.with_cells tabwriter.append] in Hlen. lia.
Qed.

(** A row of two or more plain fields is buffered whole: its [Write] cannot
    fail. *)
Lemma Write_row_buffered (fields : list string) (b : tabwriter.Writer (W := W)) :
  forallb plain fields = true -> (2 <= length fields)%nat ->
  tabwriter.endChar b = None ->
  snd (fst (io_Write b (header_row fields))) = None /\
  tabwriter.endChar (snd (io_Write b (header_row fields))) = None.
Proof.
  intros Hplain Hlen Hend.
  change (io_Write b (header_row fields))
    with (tabwriter.Write_from b (header_row fields) 0).
  unfold header_row.
  destruct (Write_from_plain (strings_Join fields (String TAB "")) (String NL "") b 0
              (plain_Join fields Hplain) Hend) as (b' & n' & -> & Hend' & Hline).
  pose proof (count_TAB_Join fields) as Htabs.
  cbn [tabwriter.Write_from]. rewrite Hend'.
  change (Ascii.eqb NL TAB) with false. change (Ascii.eqb NL VT) with false.
  change (Ascii.eqb NL NL) with true. change (Ascii.eqb NL FF) with false.
  cbn [orb tabwriter.terminateCell].
  cbn [tabwriter.line tabwriter.with_cells tabwriter.updateWidth].
  rewrite length_app. cbn [length].
  destruct (Z.eqb_spec (Z.of_nat (length (tabwriter.line b') + 1)) 1) as [Hone|_]; [lia|].
  split; [reflexivity|]. rewrite snd_pair. exact Hend'.
Qed.

Lemma printEvent_buffered (event : Event.t) (b : tabwriter.Writer (W := W)) :
  plain_event event = true -> tabwriter.endChar b = None ->
  fst (run (printEvent event) b) = None /\
  tabwriter.endChar (snd (run (printEvent event) b)) = None.
Proof.
  intros Hplain Hend. unfold printEvent, fmt_Fprintf.
  match goal with |- context [fmt_Sprintf ?f ?a] =>
    assert (Hrow : fmt_Sprintf f a
                   = header_row [ObjectReference.Name (Event.InvolvedObject event);
                                 ObjectReference.Kind (Event.InvolvedObject event);
                                 Event.Status event; Event.Reason event;
                                 Event.Message event])
      by (rewrite !header_row_cons, header_row_one; reflexivity);
    rewrite Hrow; clear Hrow end.
  match goal with |- context [header_row ?fields] =>
    assert (Hfields : forallb plain fields = true);
    [|destruct (Write_row_buffered fields b Hfields) as [Herr Hend'];
      [cbn [length]; lia|exact Hend|]] end.
  { unfold plain_event in Hplain. cbn [forallb]. rewrite andb_true_r.
    rewrite <- !andb_assoc in Hplain. exact Hplain. }
  cbn [mbind prog_mbind prog_bind w_Write run].
  destruct (io_Write b _) as [[n err] b']. cbn [fst snd] in Herr, Hend' |- *.
  split; assumption.
Qed.

Lemma printHeader_buffered (cols : list string) (b : tabwriter.Writer (W := W)) :
  forallb plain cols = true -> (2 <= length cols)%nat ->
  tabwriter.endChar b = None ->
  tabwriter.endChar (snd (run (printHeader cols) b)) = None.
Proof.
  intros Hplain Hlen Hend. unfold printHeader, fmt_Fprintf.
  rewrite header_row_Sprintf.
  destruct (Write_row_buffered cols b Hplain Hlen Hend) as [_ Hend'].
  cbn [mbind prog_mbind prog_bind w_Write run].
  destruct (io_Write b _) as [[n [err|]] b']; exact Hend'.
Qed.

Lemma printEventList_buffered (items : list Event.t) (b : tabwriter.Writer (W := W)) :
  forallb plain_event items = true -> tabwriter.endChar b = None ->
  fst (run (range_print printEvent items) b) = None.
Proof.
  revert b. induction items as [|event items IH]; intros b Hplain Hend; [reflexivity|].
  cbn [forallb] in Hplain. apply andb_prop in Hplain as [Hevent Hitems].
  cbn [range_print]. rewrite run_bind.
  destruct (printEvent_buffered event b Hevent Hend) as [-> Hend'].
  apply IH; assumption.
Qed.

(** X10. On a printer with the default registry, printing an event or a
    list of events whose fields have no line break, form feed or escape byte
    returns nil on every writer, also on one that fails: the rows have
    several cells, so the column writer keeps them until the deferred
    [Flush], whose error [PrintObj] drops. *)
Theorem event_write_errors_are_never_reported (h : HumanReadablePrinter)
    (obj : Object) (events : list Event.t) (output : W) :
  handlerMap h = handlerMap (fst (NewHumanReadablePrinter false)) ->
  events_of obj = Some events ->
  forallb plain_event events = true ->
  fst (fst (PrintObj h obj output)) = Returned None.
Proof.
  intros Hmap Hevents Hplain.
  assert (Hrender : exists p,
             render_of obj = Some (eventColumns, p) /\
             forall b : tabwriter.Writer (W := W),
               tabwriter.endChar b = None -> fst (run p b) = None).
  { destruct obj; try discriminate Hevents; injection Hevents as <-.
    - exists (printEvent event). split; [reflexivity|]. intros b Hend.
      cbn [forallb] in Hplain. rewrite andb_true_r in Hplain.
      apply printEvent_buffered; assumption.
    - exists (printEventList list). split; [reflexivity|]. intros b Hend.
      apply printEventList_buffered; assumption. }
  destruct Hrender as (p & Hrender & Hp).
  destruct (default_entry false obj eventColumns p Hrender) as (func & Hentry & Hcall).
  rewrite <- Hmap in Hentry.
  destruct (PrintObj_registered h obj output _ Hentry) as [Hprint _].
  rewrite Hprint, !fst_pair. cbn [columns printFunc]. rewrite Hcall.
  match goal with |- context [run (_ ← p; _) ?w] =>
    destruct (run_Returned p w) as [-> _]; rewrite fst_pair, (Hp w); [reflexivity|] end.
  destruct (header_due h obj); [|reflexivity].
  apply printHeader_buffered; [reflexivity|cbn [eventColumns length]; lia|reflexivity].
Qed.

End Buffered.

Section Refused.
Context {C : Collaborators}.

Lemma write0_all_refused (chunks : list string) (s : Sink) (err : error) :
  chunks <> [] -> refuses s err ->
  fst (tabwriter.write0_all chunks s) = Some err /\
  refuses (snd (tabwriter.write0_all chunks s)) err.
Proof.
  intros Hchunks Hs. destruct chunks as [|buf chunks]; [contradiction|].
  cbn [tabwriter.write0_all]. unfold io_Write, Sink_Writer.
  pose proof (Hs (received s) buf) as Hbuf.
  destruct (respond s (received s) buf) as [n e]. cbn [snd] in Hbuf. subst e.
  split; [reflexivity|]. intros history p. apply Hs.
Qed.

Lemma writeLine_nonempty (b : tabwriter.Writer (W := Sink)) (widths : list Z)
    (l : list tabwriter.cell * bool) :
  tabwriter.writeLine b widths l <> [].
Proof.
  unfold tabwriter.writeLine. intros Heq. apply app_eq_nil in Heq as [_ Heq].
  discriminate Heq.
Qed.

Lemma format_loop_nonempty (b : tabwriter.Writer (W := Sink))
    (rec : list Z -> list (list tabwriter.cell * bool) -> list string)
    (widths : list Z) (ls block : list (list tabwriter.cell * bool)) (colwidth : Z) :
  (forall w block', block' <> [] -> rec w block' <> []) ->
  ls <> [] \/ block <> [] ->
  tabwriter.format_loop b rec widths ls block colwidth <> [].
Proof.
  intros Hrec. revert block colwidth.
  induction ls as [|l ls IH]; intros block colwidth Hsome; cbn [tabwriter.format_loop].
  - destruct Hsome as [Hls|Hblock]; [contradiction|].
    destruct block; [contradiction|]. apply Hrec. discriminate.
  - destruct (Z.of_nat (length (fst l)) - 1 <=? Z.of_nat (length widths)).
    + intros Heq. apply app_eq_nil in Heq as [_ Heq].
      apply app_eq_nil in Heq as [Heq _]. exact (writeLine_nonempty _ _ _ Heq).
    + apply IH. right. intros Heq. apply app_eq_nil in Heq as [_ Heq]. discriminate Heq.
Qed.

Lemma format_nonempty (fuel : nat) (b : tabwriter.Writer (W := Sink)) (widths : list Z)
    (ls : list (list tabwriter.cell * bool)) :
  ls <> [] -> tabwriter.format fuel b widths ls <> [].
Proof.
  revert widths ls. induction fuel as [|fuel IH]; intros widths ls Hls;
    cbn [tabwriter.format].
  - destruct ls as [|l ls]; [contradiction|].
    unfold tabwriter.writeLines. cbn [flat_map]. intros Heq.
    apply app_eq_nil in Heq as [Heq _]. exact (writeLine_nonempty _ _ _ Heq).
  - apply format_loop_nonempty; [|left; exact Hls].
    intros w block' Hblock. apply IH, Hblock.
Qed.

Lemma mark_last_nonempty {A} (l : list A) : l <> [] -> tabwriter.mark_last l <> [].
Proof. destruct l as [|x [|y l]]; [contradiction|discriminate|discriminate]. Qed.

(** A flush always hands the output at least one chunk, so a writer that
    refuses everything makes every flush fail. *)
Lemma Flush_refused (b : tabwriter.Writer (W := Sink)) (err : error) :
  refuses (tabwriter.output b) err ->
  fst (tabwriter.Flush b) = Some err /\
  refuses (tabwriter.output (snd (tabwriter.Flush b))) err /\
  tabwriter.line (snd (tabwriter.Flush b)) = [] /\
  tabwriter.endChar (snd (tabwriter.Flush b)) = None.
Proof.
  intros Hb. unfold tabwriter.Flush.
  set (b1 := if 0 <? tabwriter.size (tabwriter.cur b) then _ else b).
  assert (Hb1 : refuses (tabwriter.output b1) err).
  { subst b1. destruct (0 <? tabwriter.size (tabwriter.cur b)); [|exact Hb].
    destruct (tabwriter.endChar b); exact Hb. }
  set (chunks := tabwriter.format _ _ _ _).
  assert (Hchunks : chunks <> []).
  { subst chunks. apply format_nonempty, mark_last_nonempty.
    intros Heq. apply app_eq_nil in Heq as [_ Heq]. discriminate Heq. }
  destruct (write0_all_refused chunks (tabwriter.output b1) err Hchunks Hb1)
    as [Herr Hout].
  destruct (tabwriter.write0_all chunks (tabwriter.output b1)) as [e out].
  cbn [fst snd] in Herr, Hout |- *. repeat split; assumption.
Qed.

Lemma Write_from_cell (s rest : string) (b : tabwriter.Writer (W := Sink)) (n : Z) :
  cell_text s = true -> tabwriter.endChar b = None ->
  exists b' n',
    tabwriter.Write_from b (s +:+ rest) n = tabwriter.Write_from b' rest n' /\
    tabwriter.endChar b' = None /\
    tabwriter.line b' = tabwriter.line b /\
    tabwriter.output b' = tabwriter.output b.
Proof.
  revert b n. induction s as [|ch s IH]; intros b n Hcell Hend.
  - exists b, n. repeat split; exact Hend.
  - cbn [cell_text] in Hcell.
    apply andb_prop in Hcell as [Hch Hs]. apply andb_prop in Hch as [Hch Htab].
    unfold plain_byte in Hch. apply negb_true_iff in Hch. apply negb_true_iff in Htab.
    apply orb_false_elim in Hch as [Hch Hesc]. apply orb_false_elim in Hch as [Hnl Hff].
    apply orb_false_elim in Htab as [Htab Hvt].
    change (String ch s +:+ rest) with (String ch (s +:+ rest)).
    cbn [tabwriter.Write_from]. rewrite Hend, Hnl, Hff, Hesc, Htab, Hvt. cbn [orb].
    match goal with |- context [tabwriter.Write_from ?b1 _ ?n1] =>
      destruct (IH b1 n1 Hs Hend) as (b' & n' & Heq & Hend' & Hline & Hout) end.
    exists b', n'. repeat split; assumption.
Qed.

(** A single-cell line is flushed by the [Write] that ends it: on a writer
    that refuses everything that [Write] fails. *)
Lemma Write_single_cell_row (text : string) (b : tabwriter.Writer (W := Sink))
    (err : error) :
  cell_text text = true ->
  tabwriter.endChar b = None -> tabwriter.line b = [] ->
  refuses (tabwriter.output b) err ->
  snd (fst (io_Write b (text +:+ String NL ""))) = Some err /\
  tabwriter.endChar (snd (io_Write b (text +:+ String NL ""))) = None /\
  tabwriter.line (snd (io_Write b (text +:+ String NL ""))) = [] /\
  refuses (tabwriter.output (snd (io_Write b (text +:+ String NL "")))) err.
Proof.
  intros Hcell Hend Hline Hb.
  change (io_Write b (text +:+ String NL ""))
    with (tabwriter.Write_from b (text +:+ String NL "") 0).
  destruct (Write_from_cell text (String NL "") b 0 Hcell Hend)
    as (b' & n' & -> & Hend' & Hline' & Hout').
  rewrite Hline in Hline'. rewrite <- Hout' in Hb.
  cbn [tabwriter.Write_from]. rewrite Hend'.
  change (Ascii.eqb NL TAB) with false. change (Ascii.eqb NL VT) with false.
  change (Ascii.eqb NL NL) with true. change (Ascii.eqb NL FF) with false.
  cbn [orb tabwriter.terminateCell].
  cbn [tabwriter.line tabwriter.with_cells tabwriter.updateWidth].
  rewrite Hline'. cbn [app length Z.of_nat Pos.of_succ_nat Z.eqb Pos.eqb].
  match goal with |- context [tabwriter.Flush ?b2] =>
    destruct (Flush_refused b2 err Hb) as (Herr & Hout & Hl & He);
    destruct (tabwriter.Flush b2) as [e b3] end.
  cbn [fst snd] in Herr, Hout, Hl, He. subst e. cbn [fst snd].
  repeat split; assumption.
Qed.

(** X11. On a printer with the default registry, printing a minion or a
    status whose text stays in one cell, on a writer that fails every
    [Write] with an error, returns that error: a line of a single cell is
    flushed by the [Write] that ends it. *)
Theorem single_column_write_errors_are_reported (h : HumanReadablePrinter)
    (obj : Object) (text : string) (output : Sink) (err : error) :
  handlerMap h = handlerMap (fst (NewHumanReadablePrinter false)) ->
  single_cell_of obj = Some text ->
  cell_text text = true ->
  refuses output err ->
  fst (fst (PrintObj h obj output)) = Returned (Some err).
Proof.
  intros Hmap Hsingle Hcell Hrefuses.
  assert (Hrender : exists name p,
             render_of obj = Some ([name], p) /\ cell_text name = true /\
             forall b : tabwriter.Writer (W := Sink),
               run p b = (snd (fst (io_Write b (text +:+ String NL ""))),
                          snd (io_Write b (text +:+ String NL "")))).
  { destruct obj; try discriminate Hsingle; injection Hsingle as <-.
    - exists "NAME", (printMinion minion). repeat split. intros b.
      unfold printMinion, fmt_Fprintf. cbn [mbind prog_mbind prog_bind w_Write run].
      match goal with |- context [io_Write b ?row] =>
        change row with (Minion.Name minion +:+ String NL "");
        destruct (io_Write b (Minion.Name minion +:+ String NL "")) as [[n e] b'] end.
      reflexivity.
    - exists "STATUS", (printStatus status). repeat split. intros b.
      unfold printStatus, fmt_Fprintf. cbn [mbind prog_mbind prog_bind w_Write run].
      match goal with |- context [io_Write b ?row] =>
        change row with (Status.Status status +:+ String NL "");
        destruct (io_Write b (Status.Status status +:+ String NL "")) as [[n e] b'] end.
      reflexivity. }
  destruct Hrender as (name & p & Hrender & Hname & Hp).
  destruct (default_entry false obj [name] p Hrender) as (func & Hentry & Hcall).
  rewrite <- Hmap in Hentry.
  destruct (PrintObj_registered h obj output _ Hentry) as [Hprint _].
  rewrite Hprint, !fst_pair. cbn [columns printFunc]. rewrite Hcall.
  match goal with |- context [run (_ ← p; _) ?w] =>
    destruct (run_Returned p w) as [-> _]; rewrite fst_pair, (Hp w), fst_pair;
    f_equal; apply (Write_single_cell_row text w err Hcell) end.
  - destruct (header_due h obj); [|reflexivity].
    unfold printHeader, fmt_Fprintf. rewrite header_row_Sprintf, header_row_one.
    cbn [mbind prog_mbind prog_bind w_Write run].
    destruct (Write_single_cell_row name (column_writer output) err Hname)
      as (_ & Hend & _); [reflexivity|reflexivity|exact Hrefuses|].
    destruct (io_Write (column_writer output) _) as [[n [e|]] b']; exact Hend.
  - destruct (header_due h obj); [|reflexivity].
    unfold printHeader, fmt_Fprintf. rewrite header_row_Sprintf, header_row_one.
    cbn [mbind prog_mbind prog_bind w_Write run].
    destruct (Write_single_cell_row name (column_writer output) err Hname)
      as (_ & _ & Hline & _); [reflexivity|reflexivity|exact Hrefuses|].
    destruct (io_Write (column_writer output) _) as [[n [e|]] b']; exact Hline.
  - destruct (header_due h obj); [|exact Hrefuses].
    unfold printHeader, fmt_Fprintf. rewrite header_row_Sprintf, header_row_one.
    cbn [mbind prog_mbind prog_bind w_Write run].
    destruct (Write_single_cell_row name (column_writer output) err Hname)
      as (_ & _ & _ & Hout); [reflexivity|reflexivity|exact Hrefuses|].
    destruct (io_Write (column_writer output) _) as [[n [e|]] b']; exact Hout.
Qed.

End Refused.

(** *** The versioned printers and [GetPrinter] *)

Section Versioned.
Context `{Cd : Codecs}.

(** X13. When the version lookup or the encoder fails, [toVersionedMap]
    returns a nil map with that error, and the JSON, YAML and template
    printers all return that same error and write nothing. *)
Theorem versioned_printers_fail_alike {W : Type} `{io_Writer W} (version : string)
    (template : template_Template) (obj : Object) (w : W) (err : error) :
  let vi := latest_InterfacesFor version in
  snd vi = Some err \/ (snd vi = None /\ snd (Codec_Encode (fst vi) obj) = Some err) ->
  let j := JSONPrinter_PrintObj (mkJSONPrinter version) obj in
  let y := YAMLPrinter_PrintObj (mkYAMLPrinter version) obj in
  let t := TemplatePrinter_PrintObj (mkTemplatePrinter version template) obj in
  toVersionedMap version obj = (None, Some err) /\
  run j w = (Some err, w) /\ run y w = (Some err, w) /\ run t w = (Some err, w) /\
  requests j w = [] /\ requests y w = [] /\ requests t w = [].
Proof.
  intros vi Hfail j y t. subst vi j y t.
  unfold JSONPrinter_PrintObj, YAMLPrinter_PrintObj, TemplatePrinter_PrintObj,
    toVersionedMap.
  cbn [JSONPrinter_version YAMLPrinter_version TemplatePrinter_version].
  destruct (latest_InterfacesFor version) as [vi [e|]]; cbn [fst snd] in Hfail.
  - destruct Hfail as [[= ->]|[[=] _]]. repeat split.
  - destruct Hfail as [[=]|[_ Hfail]].
    destruct (Codec_Encode vi obj) as [data [e|]]; cbn [snd] in Hfail;
      [|discriminate Hfail].
    injection Hfail as ->. repeat split.
Qed.


End Versioned.

Section Formats.
Context {C : Collaborators}.

(** X15. [GetPrinter] returns a nil printer whenever it returns an error.
    Without an error it returns the fallback printer for the empty format,
    and for every other format a printer that is versioned and was made for
    the version asked for; in particular never a nil [TemplatePrinter]
    pointer behind the interface. *)
Theorem GetPrinter_returns_printer_or_error (version format templateFile : string)
    (defaultPrinter : ResourcePrinter) :
  let r := GetPrinter version format templateFile defaultPrinter in
  match snd r with
  | Some _ => fst r = nil_ResourcePrinter
  | None =>
      if String.eqb format "" then fst r = defaultPrinter
      else ResourcePrinter_IsVersioned (fst r) = Some true /\
           ResourcePrinter_version (fst r) = Some version
  end.
Proof.
  intros r. subst r. unfold GetPrinter, NewTemplatePrinter.
  destruct (String.eqb_spec format "json") as [->|_]; [split; reflexivity|].
  destruct (String.eqb_spec format "yaml") as [->|_]; [split; reflexivity|].
  destruct (String.eqb_spec format "template") as [->|_].
  { destruct (len templateFile =? 0); [reflexivity|].
    destruct (template_Parse "output" templateFile) as [t [e|]]; [reflexivity|].
    split; reflexivity. }
  destruct (String.eqb_spec format "templatefile") as [->|_].
  { destruct (len templateFile =? 0); [reflexivity|].
    destruct (ioutil_ReadFile templateFile) as [data [e|]]; [reflexivity|].
    destruct (template_Parse "output" data) as [t [e|]]; [reflexivity|].
    split; reflexivity. }
  destruct (String.eqb format ""); reflexivity.
Qed.

End Formats.

(** *** Validation of handlers *)

Section Validation.
Context {C : Collaborators}.


End Validation.


(** ** The theorems at concrete inputs *)

Section Examples.
#[local] Existing Instance demo.


(** The headers of that session: one for the list, one for the first single
    service, none for the second, one for the minion. *)
Example demo_session_headers :
  map (fun call => length (snd call))
    (PrintObj_session demo_printer demo_session bytes_Buffer) = [3; 2; 1; 2]%nat.
Proof. vm_compute. reflexivity. Qed.

(** C2 at [printService], registered again under other columns. *)
Lemma Handler_registers_exactly_handler_shape_witness :
  handler_shape (Value_Type ValueOf_printService) (api "Service") /\
  Handler demo_printer ["SERVICE"] ValueOf_printService =
    (None,
     mkHumanReadablePrinter
       (<[Some (api "Service") := mkHandlerEntry ["SERVICE"] ValueOf_printService]>
          (handlerMap demo_printer))
       false None,
     []).
Proof.
  split; [reflexivity|].
  apply (proj1 (Handler_registers_exactly_handler_shape demo_printer ["SERVICE"]
                  ValueOf_printService) (api "Service") eq_refl).
Defined.

(** A function of three parameters is refused and the printer stays. *)
Example Handler_refuses_three_parameters :
  let printFunc :=
    mkValue (Some (TFunc [api "Service"; TInterface "io.Writer"; TBasic "int"]
                     [TInterface "error"]))
            (fun _ => Ret (Returned None)) in
  exists err, Handler demo_printer serviceColumns printFunc =
                (Some err, demo_printer, [("Unable to add print handler: %v", [VError err])]).
Proof. eexists. reflexivity. Qed.

(** C3 at a value of type [int]. *)
Lemma PrintObj_unknown_type_writes_nothing_witness :
  handlerMap demo_printer !! reflect_TypeOf demo_unknown = None /\
  fst (fst (PrintObj demo_printer demo_unknown bytes_Buffer)) =
    Returned (Some (fmt_Errorf "error: unknown type %#v" [VObject demo_unknown])) /\
  PrintObj_writes demo_printer demo_unknown bytes_Buffer = [] /\
  received (snd (PrintObj demo_printer demo_unknown bytes_Buffer))
    = received bytes_Buffer ++ [""] /\
  Sink_bytes (snd (PrintObj demo_printer demo_unknown bytes_Buffer))
    = Sink_bytes bytes_Buffer.
Proof.
  assert (Hnone : handlerMap demo_printer !! reflect_TypeOf demo_unknown = None)
    by (vm_compute; reflexivity).
  split; [exact Hnone|].
  apply (PrintObj_unknown_type_writes_nothing demo_printer demo_unknown bytes_Buffer Hnone).
Defined.

(** C4 at the format [xml]. *)
Lemma GetPrinter_fails_exactly_when_witness :
  GetPrinter "v1beta1" "xml" "" nil_ResourcePrinter =
    (nil_ResourcePrinter,
     Some (fmt_Errorf "output format %q not recognized" [VString "xml"])).
Proof.
  apply (proj1 (proj2 (GetPrinter_fails_exactly_when "v1beta1" "xml" "" nil_ResourcePrinter))).
  repeat split; discriminate.
Defined.

(** A template that does not parse, and a template file that cannot be
    read. *)
Example GetPrinter_template_errors :
  is_Some (snd (GetPrinter "v1beta1" "template" "{{" nil_ResourcePrinter)) /\
  is_Some (snd (GetPrinter "v1beta1" "templatefile" "missing.tmpl" nil_ResourcePrinter)) /\
  snd (GetPrinter "v1beta1" "template" "{{.id}}" nil_ResourcePrinter) = None.
Proof. repeat split; vm_compute; eauto. Qed.

(** C8 at an indentation that reports an error. *)
Lemma JSONPrinter_indent_failure_unobservable_witness :
  let PrintObj_j :=
    JSONPrinter_PrintObj
      (H := with_Indent_error demo (fun _ _ _ _ => Some (ErrNew "invalid character")))
      (mkJSONPrinter "v1beta1") demo_services in
  run PrintObj_j bytes_Buffer =
    (snd (fst (io_Write bytes_Buffer (lit "{}\n"))), snd (io_Write bytes_Buffer (lit "{}\n"))) /\
  requests PrintObj_j bytes_Buffer = [lit "{}\n"].
Proof.
  apply (JSONPrinter_indent_failure_unobservable (C := demo)
           (mkJSONPrinter "v1beta1") demo_services bytes_Buffer
           (fun _ _ _ _ => Some (ErrNew "invalid character")));
    reflexivity.
Defined.

(** C9 at a value of type [int], after a service list was printed. *)
Lemma PrintObj_unknown_type_keeps_printer_witness :
  let h := snd (fst (PrintObj demo_printer demo_services bytes_Buffer)) in
  let h' := snd (fst (PrintObj h demo_unknown bytes_Buffer)) in
  handlerMap h !! reflect_TypeOf demo_unknown = None /\
  h' = h /\
  lastType h' = lastType h /\
  handlerMap h' = handlerMap h /\
  (forall later, header_due h' later = header_due h later) /\
  (forall later output',
      PrintObj_session h' later output' = PrintObj_session h later output').
Proof.
  intros h h'.
  assert (Hnone : handlerMap h !! reflect_TypeOf demo_unknown = None)
    by (vm_compute; reflexivity).
  split; [exact Hnone|].
  apply (PrintObj_unknown_type_keeps_printer h demo_unknown bytes_Buffer Hnone).
Defined.



(** [JSONPrinter.PrintObj] on a version that does not exist: the lookup's
    error, and nothing written. *)
Example JSONPrinter_unknown_version :
  run (JSONPrinter_PrintObj (mkJSONPrinter "v9") demo_services) bytes_Buffer
  = (Some (ErrNew "unsupported version"), bytes_Buffer).
Proof. reflexivity. Qed.

(** [printMinionList] on a writer that fails: the first minion is tried, the
    second is not. *)
Example printMinionList_stops_at_first_error :
  let w := failing_Writer (ErrNew "closed pipe") in
  let minions := MinionList.mk [Minion.mk "node-1"; Minion.mk "node-2"] in
  run (printMinionList minions) w
  = (Some (ErrNew "closed pipe"),
     mkSink (respond w) [lit "node-1\n"]).
Proof. reflexivity. Qed.

(** The column writer on the first example of the package documentation of
    [text/tabwriter] (tab padding, tab width 8), and on column blocks that a
    line without a tab separates. *)
Example tabwriter_documented_example :
  let w := tabwriter.NewWriter bytes_Buffer 0 8 0 TAB 0 in
  let w := snd (io_Write w (lit "a\tb\tc\td\t.\n")) in
  let w := snd (io_Write w (lit "123\t12345\t1234567\t123456789\t.\n")) in
  Sink_bytes (tabwriter.output (snd (tabwriter.Flush w)))
  = lit "a\tb\tc\td\t\t.\n123\t12345\t1234567\t123456789\t.\n".
Proof. vm_compute. reflexivity. Qed.

Example tabwriter_column_blocks :
  let w := tabwriter.NewWriter bytes_Buffer 0 8 1 " " 0 in
  let w := snd (io_Write w (lit "aaaa\tb\nc\td\nx\nlonglonglong\ty\nz\tw\n")) in
  Sink_bytes (tabwriter.output (snd (tabwriter.Flush w)))
  = lit "aaaa b\nc    d\nx\nlonglonglong y\nz            w\n".
Proof. vm_compute. reflexivity. Qed.

End Examples.

(** ** Further examples *)

Section MoreExamples.
#[local] Existing Instance demo.
#[local] Existing Instance demo_codecs.

(** X3 at the two service handlers, registered again under other columns. *)
Lemma Handler_last_registration_wins_witness :
  handler_shape (Value_Type ValueOf_printService) (api "Service") /\
  handler_shape (Value_Type ValueOf_printServiceList) (api "ServiceList") /\
  snd (fst (Handler (snd (fst (Handler demo_printer ["SERVICE"] ValueOf_printService)))
              ["SERVICES"] ValueOf_printServiceList))
  = snd (fst (Handler (snd (fst (Handler demo_printer ["SERVICES"]
                                   ValueOf_printServiceList)))
                ["SERVICE"] ValueOf_printService)).
Proof.
  split; [reflexivity|]. split; [reflexivity|].
  apply (Handler_last_registration_wins demo_printer ["SERVICE"] ["SERVICES"]
           ValueOf_printService ValueOf_printServiceList
           (api "Service") (api "ServiceList") eq_refl eq_refl).
  discriminate.
Defined.

(** X4 at [printService], registered again under one column. *)
Lemma Handler_then_PrintObj_calls_the_handler_witness :
  handler_shape (Value_Type ValueOf_printService) (api "Service") /\
  reflect_TypeOf (ObjService (demo_service "a" 80)) = Some (api "Service") /\
  PrintObj_writes (snd (fst (Handler demo_printer ["SERVICE"] ValueOf_printService)))
    (ObjService (demo_service "a" 80)) bytes_Buffer
  = [lit "SERVICE\n"; lit "a\tapp=a\tname=a\t10.0.0.1\t80\n"].
Proof.
  split; [reflexivity|]. split; [reflexivity|].
  rewrite (proj2 (Handler_then_PrintObj_calls_the_handler demo_printer ["SERVICE"]
                    ValueOf_printService (api "Service")
                    (ObjService (demo_service "a" 80)) bytes_Buffer eq_refl eq_refl)).
  vm_compute. reflexivity.
Defined.



(** X7 at a new printer with headers suppressed. *)
Lemma PrintObj_without_headers_witness :
  noHeaders (fst (NewHumanReadablePrinter true)) = true /\
  snd (fst (PrintObj (fst (NewHumanReadablePrinter true)) demo_services bytes_Buffer))
  = fst (NewHumanReadablePrinter true).
Proof.
  split; [reflexivity|].
  apply (PrintObj_without_headers (fst (NewHumanReadablePrinter true)) demo_services
           bytes_Buffer eq_refl).
Defined.

(** X10 at one event, on a writer that fails every [Write]. *)
Lemma event_write_errors_are_never_reported_witness :
  events_of (ObjEvent demo_event) = Some [demo_event] /\
  forallb plain_event [demo_event] = true /\
  fst (fst (PrintObj demo_printer (ObjEvent demo_event)
              (failing_Writer (ErrNew "closed pipe")))) = Returned None.
Proof.
  split; [reflexivity|]. split; [reflexivity|].
  apply (event_write_errors_are_never_reported demo_printer (ObjEvent demo_event)
           [demo_event] (failing_Writer (ErrNew "closed pipe")) eq_refl eq_refl eq_refl).
Defined.

(** X11 at a minion, on a writer that fails every [Write]. *)
Lemma single_column_write_errors_are_reported_witness :
  single_cell_of (ObjMinion (Minion.mk "node-1")) = Some "node-1" /\
  cell_text "node-1" = true /\
  refuses (failing_Writer (ErrNew "closed pipe")) (ErrNew "closed pipe") /\
  fst (fst (PrintObj demo_printer (ObjMinion (Minion.mk "node-1"))
              (failing_Writer (ErrNew "closed pipe"))))
  = Returned (Some (ErrNew "closed pipe")).
Proof.
  assert (Hrefuses : refuses (failing_Writer (ErrNew "closed pipe")) (ErrNew "closed pipe"))
    by (intros history p; reflexivity).
  split; [reflexivity|]. split; [reflexivity|]. split; [exact Hrefuses|].
  apply (single_column_write_errors_are_reported demo_printer
           (ObjMinion (Minion.mk "node-1")) "node-1"
           (failing_Writer (ErrNew "closed pipe")) (ErrNew "closed pipe")
           eq_refl eq_refl eq_refl Hrefuses).
Defined.

(** X13 at a version that does not exist. *)
Lemma versioned_printers_fail_alike_witness :
  snd (latest_InterfacesFor "v9") = Some (ErrNew "unsupported version") /\
  run (YAMLPrinter_PrintObj (mkYAMLPrinter "v9") demo_services) bytes_Buffer
  = (Some (ErrNew "unsupported version"), bytes_Buffer) /\
  run (TemplatePrinter_PrintObj (mkTemplatePrinter "v9" demo_template) demo_services)
    bytes_Buffer
  = (Some (ErrNew "unsupported version"), bytes_Buffer).
Proof.
  split; [reflexivity|].
  destruct (versioned_printers_fail_alike "v9" demo_template demo_services bytes_Buffer
              (ErrNew "unsupported version") (or_introl eq_refl))
    as (_ & _ & Hyaml & Htemplate & _).
  split; [exact Hyaml|exact Htemplate].
Defined.


End MoreExamples.

